(** * Personal finance tracker: the transaction store of [main.py]

    A shallow embedding of class [CSV] ([initialize_csv], [add_entry],
    [add_sample_data], [get_transactions]) and of the menu loop [main],
    followed by the properties of the store, the range query, the totals
    and the report.

    Modelling choices, all local to this file:
    - [finance_data.csv] is either absent or a file made of an optional
      header line and data rows of four cells; a data row carries its
      date cell as text and its amount cell as the number pandas reads
      there, a finite float64 value held as the rational it is;
    - the figures of the summary are float64 values, the kernel's
      binary64: the subtraction of line 99 is the one of IEEE 754, and
      the sums of lines 93 and 94 are taken through [series_sum], of
      which only what holds in whatever order pandas adds is assumed;
    - category and description cells are kept as their text; pandas
      reads some text as a missing value or a number, so what is said
      of these cells is said of [plain] text;
    - [datetime.strptime] and [pandas.to_datetime] with
      [format="%d-%m-%Y"] are one parser, written from the regular
      expression the format compiles to; text is ASCII;
    - [print], [input] prompts and the plot are events appended to the
      console. *)

From Stdlib Require Import ZArith QArith List String Ascii Bool Lia Sorted.
From Stdlib Require Import Floats.
Import ListNotations.

Local Open Scope string_scope.
Local Open Scope list_scope.
Local Open Scope Z_scope.

(** ** Calendar dates: [datetime] restricted to year, month, day *)

Record datetime := mk_datetime { year : Z; month : Z; day : Z }.

(** [datetime._is_leap] *)
Definition is_leap (y : Z) : bool :=
  (y mod 4 =? 0) && (negb (y mod 100 =? 0) || (y mod 400 =? 0)).

(** [datetime._DAYS_IN_MONTH] *)
Definition DAYS_IN_MONTH (m : Z) : Z :=
  match m with
  | 1 => 31 | 2 => 28 | 3 => 31 | 4 => 30 | 5 => 31 | 6 => 30
  | 7 => 31 | 8 => 31 | 9 => 30 | 10 => 31 | 11 => 30 | 12 => 31
  | _ => 0
  end.

(** [datetime._DAYS_BEFORE_MONTH] *)
Definition DAYS_BEFORE_MONTH (m : Z) : Z :=
  match m with
  | 1 => 0 | 2 => 31 | 3 => 59 | 4 => 90 | 5 => 120 | 6 => 151
  | 7 => 181 | 8 => 212 | 9 => 243 | 10 => 273 | 11 => 304 | 12 => 334
  | _ => 0
  end.

Definition days_in_month (y m : Z) : Z :=
  if (m =? 2) && is_leap y then 29 else DAYS_IN_MONTH m.

Definition days_before_year (y : Z) : Z :=
  let p := y - 1 in p * 365 + p / 4 - p / 100 + p / 400.

Definition days_before_month (y m : Z) : Z :=
  DAYS_BEFORE_MONTH m + (if (2 <? m) && is_leap y then 1 else 0).

(** [datetime._check_date_fields]: the fields a [datetime] accepts. *)
Definition check_date_fields (y m d : Z) : bool :=
  (1 <=? y) && (y <=? 9999) && (1 <=? m) && (m <=? 12) &&
  (1 <=? d) && (d <=? days_in_month y m).

(** The constructor [datetime(y, m, d)]; [None] is its [ValueError]. *)
Definition datetime_new (y m d : Z) : option datetime :=
  if check_date_fields y m d then Some (mk_datetime y m d) else None.

(** [datetime.toordinal]: days since 31-12-0000. *)
Definition toordinal (t : datetime) : Z :=
  days_before_year (year t) + days_before_month (year t) (month t) + day t.

(** The integer a pandas [Timestamp] holds: nanoseconds since
    01-01-1970 (ordinal 719163), at midnight. *)
Definition Timestamp_value (t : datetime) : Z :=
  (toordinal t - 719163) * 86400 * 1000000000.

(** [series >= bound] and [series <= bound] of line 77, cell by cell. *)
Definition ts_ge (t bound : datetime) : bool :=
  Timestamp_value bound <=? Timestamp_value t.

Definition ts_le (t bound : datetime) : bool :=
  Timestamp_value t <=? Timestamp_value bound.

(** The order of the calendar: year first, then month, then day. *)
Definition calendar_le (a b : datetime) : Prop :=
  year a < year b \/
  (year a = year b /\
   (month a < month b \/ (month a = month b /\ day a <= day b))).

Definition valid_date (t : datetime) : Prop :=
  check_date_fields (year t) (month t) (day t) = true.

(** ** The format [%d-%m-%Y] *)

Definition code (c : ascii) : Z := Z.of_N (N_of_ascii c).

(** A character class [[lo-hi]]. *)
Definition between (lo hi c : ascii) : bool :=
  (code lo <=? code c) && (code c <=? code hi).

(** [\d], on ASCII text. *)
Definition is_digit (c : ascii) : bool := between "0" "9" c.

Definition is_char (x c : ascii) : bool := Ascii.eqb x c.

(** The value [int] gives one character of a matched group: a digit
    counts, the leading blank of [" 7"] does not. *)
Definition digit_val (c : ascii) : Z :=
  if is_digit c then code c - 48 else 0.

Section Regex.
Context {A : Type}.

(** First alternative that leads to a match wins. *)
Definition orelse (x y : option A) : option A :=
  match x with Some _ => x | None => y end.

(** Two characters of the given classes, read as a number. *)
Definition two (p1 p2 : ascii -> bool) (s : string)
    (k : Z -> string -> option A) : option A :=
  match s with
  | String c1 (String c2 rest) =>
      if p1 c1 && p2 c2 then k (10 * digit_val c1 + digit_val c2) rest
      else None
  | _ => None
  end.

(** One character of the given class, read as a number. *)
Definition one (p : ascii -> bool) (s : string)
    (k : Z -> string -> option A) : option A :=
  match s with
  | String c rest => if p c then k (digit_val c) rest else None
  | _ => None
  end.

(** A literal character of the format. *)
Definition lit (x : ascii) (s : string) (k : string -> option A) : option A :=
  match s with
  | String c rest => if is_char x c then k rest else None
  | _ => None
  end.

(** [%d]: [(3[0-1]|[1-2]\d|0[1-9]|[1-9]| [1-9])] *)
Definition re_d (s : string) (k : Z -> string -> option A) : option A :=
  orelse (two (is_char "3") (between "0" "1") s k)
 (orelse (two (between "1" "2") is_digit s k)
 (orelse (two (is_char "0") (between "1" "9") s k)
 (orelse (one (between "1" "9") s k)
         (two (is_char " ") (between "1" "9") s k)))).

(** [%m]: [(1[0-2]|0[1-9]|[1-9])] *)
Definition re_m (s : string) (k : Z -> string -> option A) : option A :=
  orelse (two (is_char "1") (between "0" "2") s k)
 (orelse (two (is_char "0") (between "1" "9") s k)
         (one (between "1" "9") s k)).

(** [%Y]: [(\d\d\d\d)] *)
Definition re_Y (s : string) (k : Z -> string -> option A) : option A :=
  two is_digit is_digit s (fun hi s' =>
  two is_digit is_digit s' (fun lo rest => k (100 * hi + lo) rest)).
End Regex.

(** [format_regex.match(data_string)] for [%d-%m-%Y]: the groups and
    what is left of the text after the match. *)
Definition format_match (s : string) : option (Z * Z * Z * string) :=
  re_d s (fun d s1 =>
  lit "-" s1 (fun s2 =>
  re_m s2 (fun m s3 =>
  lit "-" s3 (fun s4 =>
  re_Y s4 (fun y rest => Some (d, m, y, rest)))))).

(** [datetime.strptime(s, "%d-%m-%Y")]; [None] stands for the
    [ValueError] of a text that does not match, of unconverted data
    after the match, and of fields that are no date. *)
Definition strptime (s : string) : option datetime :=
  match format_match s with
  | Some (d, m, y, EmptyString) => datetime_new y m d
  | _ => None
  end.

(** [pd.to_datetime(cell, format="%d-%m-%Y", errors='coerce')] on one
    cell; [None] is [NaT].  The span of years a [Timestamp] can hold is
    not modelled: every date of [datetime] is taken to fit. *)
Definition to_datetime (s : string) : option datetime := strptime s.

(** ** Rows, files and frames *)

(** One data line of the file, by [COLUMNS]. *)
Record row := mk_row {
  date : string;
  amount : Q;
  category : string;
  description : string }.

(** [finance_data.csv] when it exists: with or without the header line
    [date,amount,category,description], then the data lines in append
    order.  No header and no line is the file of zero bytes. *)
Record csv_file := mk_file { has_header : bool; lines : list row }.

(** A row of a [DataFrame]: its index label and its four cells; [D] is
    what the date column holds at that point of the computation. *)
Record frow (D : Type) := mk_frow {
  label : nat;
  cell_date : D;
  cell_amount : Q;
  cell_category : string;
  cell_description : string }.

Arguments mk_frow {D}.
Arguments label {D}.
Arguments cell_date {D}.
Arguments cell_amount {D}.
Arguments cell_category {D}.
Arguments cell_description {D}.

(** A [DataFrame]: [named] tells whether its columns are [COLUMNS]
    (they are the cells of a data line when the file has no header). *)
Record DataFrame (D : Type) := mk_df { named : bool; rows : list (frow D) }.

Arguments mk_df {D}.
Arguments named {D}.
Arguments rows {D}.

(** [df.empty] *)
Definition empty {D} (df : DataFrame D) : bool :=
  match rows df with [] => true | _ :: _ => false end.

(** The default [RangeIndex]: lines are labelled from [i] on. *)
Fixpoint number (i : nat) (rs : list row) : list (frow string) :=
  match rs with
  | [] => []
  | r :: rs' =>
      mk_frow i (date r) (amount r) (category r) (description r)
        :: number (S i) rs'
  end.

(** A frame row written back as a line ([index=False]). *)
Definition unframe (x : frow string) : row :=
  mk_row (cell_date x) (cell_amount x) (cell_category x) (cell_description x).

(** Line 69 on one row: the date cell becomes a date or [NaT]. *)
Definition coerce_date (x : frow string) : frow (option datetime) :=
  mk_frow (label x) (to_datetime (cell_date x))
          (cell_amount x) (cell_category x) (cell_description x).

(** [df.dropna(subset=["date"])] *)
Fixpoint dropna (xs : list (frow (option datetime))) : list (frow datetime) :=
  match xs with
  | [] => []
  | x :: xs' =>
      match cell_date x with
      | Some t =>
          mk_frow (label x) t (cell_amount x) (cell_category x)
                  (cell_description x) :: dropna xs'
      | None => dropna xs'
      end
  end.

(** The mask of line 77 on one row. *)
Definition mask (start_date end_date : datetime) (x : frow datetime) : bool :=
  ts_ge (cell_date x) start_date && ts_le (cell_date x) end_date.

(** [series.astype(float).sum()] on a column that holds the numbers
    [xs]: a float64.  pandas and numpy choose the order of the
    additions, and with it the rounding; nothing is assumed of it but
    the sum of an empty column. *)
Class Summation := {
  series_sum : list Q -> float;
  series_sum_nil : series_sum [] = 0%float }.

(** [df[df["category"] == c]["amount"].sum()] of lines 93 and 94. *)
Definition total {sums : Summation} (c : string) (xs : list (frow datetime))
    : float :=
  series_sum (map cell_amount
                (filter (fun x => String.eqb (cell_category x) c) xs)).

Definition total_income {sums : Summation} (xs : list (frow datetime))
    : float :=
  total "Income" xs.

Definition total_expense {sums : Summation} (xs : list (frow datetime))
    : float :=
  total "Expense" xs.

(** ** The console, the disk and the monad of the program *)

Inductive event :=
| print_entry_added                          (* "Entry added successfully" *)
| print_sample_data_added                    (* "Sample data added successfully." *)
| print_no_transactions                      (* "No transactions found in the given date range." *)
| print_transactions_from (a b : datetime)   (* "Transactions from a to b:" *)
| print_table (t : list (frow datetime))     (* filtered_df.to_string(...) *)
| print_summary                              (* "Summary:" *)
| print_total_income (x : float)             (* "Total Income: $x" *)
| print_total_expense (x : float)            (* "Total Expense: $x" *)
| print_net_savings (x : float)              (* "Net Savings: $x" *)
| print_menu_add                             (* "1. Add a new transaction" *)
| print_menu_view                            (* "2. View transactions ..." *)
| print_menu_exit                            (* "3. Exit" *)
| print_exiting                              (* "Exiting..." *)
| print_invalid_choice                       (* "Invalid choice. Enter 1, 2, or 3." *)
| prompt_choice                              (* input("Enter your choice (1-3): ") *)
| prompt_plot                                (* input("Do you want to see a plot? (y/n): ") *)
| show_plot (t : list (frow datetime)).      (* plt.show() on the frame *)

Inductive exn := FileNotFoundError | EmptyDataError | KeyError | ValueError.

Inductive outcome (A : Type) :=
| Ok (a : A)
| Raise (e : exn).

Arguments Ok {A}.
Arguments Raise {A}.

Record world := mk_world { disk : option csv_file; console : list event }.

(** A computation reads and changes the world and returns or raises;
    what it did before raising stays done. *)
Definition M (A : Type) : Type := world -> outcome A * world.

Definition ret {A} (a : A) : M A := fun w => (Ok a, w).

Definition raise {A} (e : exn) : M A := fun w => (Raise e, w).

Definition bind {A B} (m : M A) (k : A -> M B) : M B :=
  fun w =>
    match m w with
    | (Ok a, w') => k a w'
    | (Raise e, w') => (Raise e, w')
    end.

Notation "x <- m ;; k" := (bind m (fun x => k))
  (at level 61, m at next level, right associativity).
Notation "m ;;; k" := (bind m (fun _ => k))
  (at level 61, right associativity).

(** [print(...)], and the prompt of an [input(...)]. *)
Definition emit (e : event) : M unit :=
  fun w => (Ok tt, mk_world (disk w) (console w ++ [e])).

(** [try: m  except FileNotFoundError: h] *)
Definition except_FileNotFoundError {A} (m h : M A) : M A :=
  fun w =>
    match m w with
    | (Raise FileNotFoundError, w') => h w'
    | r => r
    end.

(** [datetime.strptime] as a statement: its [ValueError] is raised. *)
Definition strptime_or_raise (s : string) : M datetime :=
  match strptime s with
  | Some t => ret t
  | None => raise ValueError
  end.

(** [pd.read_csv(CSV_FILE)]: the first line names the columns.  The
    cells of a line are kept as the line has them; pandas gives a
    category or a description back as that text when it is [plain],
    and may read other text as a missing value or a number. *)
Definition read_csv : M (DataFrame string) :=
  fun w =>
    match disk w with
    | None => (Raise FileNotFoundError, w)
    | Some f =>
        if has_header f then (Ok (mk_df true (number 0 (lines f))), w)
        else
          match lines f with
          | [] => (Raise EmptyDataError, w)
          | _ :: rs => (Ok (mk_df false (number 0 rs)), w)
          end
    end.

(** [df.to_csv(CSV_FILE, index=False)]: the file is written anew with
    the header line. *)
Definition to_csv (df : DataFrame string) : M unit :=
  fun w =>
    (Ok tt, mk_world (Some (mk_file true (map unframe (rows df)))) (console w)).

(** [open(CSV_FILE, "a", newline="")] and the rows a writer puts there:
    the file is created when absent, with no header line. *)
Definition append_rows (rs : list row) : M unit :=
  fun w =>
    let f :=
      match disk w with
      | None => mk_file false rs
      | Some f => mk_file (has_header f) (lines f ++ rs)
      end
    in (Ok tt, mk_world (Some f) (console w)).

(** [df["date"]], [df["amount"]], [df["category"]]: a [KeyError] when
    the frame has no such columns.  The columns of a file without
    header are named after the cells of its first line, which are
    taken not to spell these names; what a query does on such a file
    is stated nowhere below beyond that it writes nothing, and that it
    raises when a bound does not read. *)
Definition columns_or_raise {D} (df : DataFrame D) : M unit :=
  if named df then ret tt else raise KeyError.

Module CSV.

Definition sample_data : list row :=
  [ mk_row "01-01-2025" 2000 "Income" "Salary";
    mk_row "02-01-2025" (-150) "Expense" "Groceries";
    mk_row "03-01-2025" 500 "Income" "Freelance work";
    mk_row "04-01-2025" (-200) "Expense" "Transport";
    mk_row "05-01-2025" (-100) "Expense" "Entertainment";
    mk_row "06-01-2025" 1000 "Income" "Investment Returns";
    mk_row "07-01-2025" (-50) "Expense" "Snacks";
    mk_row "08-01-2025" (-300) "Expense" "Rent";
    mk_row "09-01-2025" 1500 "Income" "Freelance work";
    mk_row "10-01-2025" (-250) "Expense" "Utilities";
    mk_row "11-01-2025" 100 "Income" "Side project";
    mk_row "12-01-2025" (-200) "Expense" "Groceries";
    mk_row "13-01-2025" (-150) "Expense" "Transport";
    mk_row "14-01-2025" 2500 "Income" "Salary";
    mk_row "15-01-2025" (-300) "Expense" "Insurance" ].

Definition add_sample_data (df : DataFrame string) : M unit :=
  if empty df then
    append_rows sample_data ;;;
    emit print_sample_data_added
  else ret tt.

Definition initialize_csv : M unit :=
  except_FileNotFoundError
    (df <- read_csv ;; ret tt)
    (let df := mk_df true [] in
     to_csv df ;;;
     add_sample_data df).

Definition add_entry (date : string) (amount : Q)
    (category description : string) : M unit :=
  let new_entry := mk_row date amount category description in
  append_rows [new_entry] ;;;
  emit print_entry_added.

Definition get_transactions {sums : Summation}
    (start_date end_date : string) : M (DataFrame datetime) :=
  df <- read_csv ;;
  columns_or_raise df ;;;
  let df := mk_df (named df) (dropna (map coerce_date (rows df))) in
  start_date <- strptime_or_raise start_date ;;
  end_date <- strptime_or_raise end_date ;;
  let filtered_df :=
    mk_df (named df) (filter (mask start_date end_date) (rows df)) in
  (if empty filtered_df then emit print_no_transactions
   else
     emit (print_transactions_from start_date end_date) ;;;
     emit (print_table (rows filtered_df))) ;;;
  (* line 92, astype(float), is part of series_sum *)
  let total_income := total_income (rows filtered_df) in
  let total_expense := total_expense (rows filtered_df) in
  emit print_summary ;;;
  emit (print_total_income total_income) ;;;
  emit (print_total_expense total_expense) ;;;
  emit (print_net_savings (PrimFloat.sub total_income total_expense)) ;;;
  ret filtered_df.

End CSV.

(** ** The menu *)

(** [plot_transactions(df)]: the chart is one event.  On a frame
    without rows [df.index.min()] is [NaT] and [pd.date_range] raises
    [ValueError] before anything is drawn. *)
Definition plot_transactions (df : DataFrame datetime) : M unit :=
  match rows df with
  | [] => raise ValueError
  | _ :: _ => emit (show_plot (rows df))
  end.

(** What the user and the prompts of [data_entry] deliver during one
    pass of the loop; a pass reads only what its branch asks for. *)
Record answers := mk_answers {
  choice : string;        (* input("Enter your choice (1-3): ") *)
  entry : row;            (* get_date, get_amount, get_category, get_description *)
  start_answer : string;  (* get_date("Enter the start date (dd-mm-yyyy): ") *)
  end_answer : string;    (* get_date("Enter the end date (dd-mm-yyyy): ") *)
  plot_answer : string }. (* input("Do you want to see a plot? (y/n): ") *)

(** [str.lower], on ASCII text. *)
Definition lower_char (c : ascii) : ascii :=
  if between "A" "Z" c then ascii_of_N (N_of_ascii c + 32) else c.

Fixpoint lower (s : string) : string :=
  match s with
  | EmptyString => EmptyString
  | String c s' => String (lower_char c) (lower s')
  end.

Definition add (a : answers) : M unit :=
  CSV.initialize_csv ;;;
  let e := entry a in
  CSV.add_entry (date e) (amount e) (category e) (description e).

Inductive control := Continue | Break.

(** The body of [while True] in [main]. *)
Definition main_body {sums : Summation} (a : answers) : M control :=
  emit print_menu_add ;;;
  emit print_menu_view ;;;
  emit print_menu_exit ;;;
  emit prompt_choice ;;;
  if String.eqb (choice a) "1" then
    add a ;;; ret Continue
  else if String.eqb (choice a) "2" then
    df <- CSV.get_transactions (start_answer a) (end_answer a) ;;
    (if negb (empty df) then
       emit prompt_plot ;;;
       if String.eqb (lower (plot_answer a)) "y" then plot_transactions df
       else ret tt
     else ret tt) ;;;
    ret Continue
  else if String.eqb (choice a) "3" then
    emit print_exiting ;;; ret Break
  else
    emit print_invalid_choice ;;; ret Continue.

(** [main] over the passes the user goes through: the loop runs until
    a pass breaks out of it or raises, or the script ends. *)
Fixpoint main {sums : Summation} (script : list answers) : M unit :=
  match script with
  | [] => ret tt
  | a :: script' =>
      c <- main_body a ;;
      match c with
      | Continue => main script'
      | Break => ret tt
      end
  end.

(** ** Vocabulary of the statements *)

(** The frame row that line [i] of the file becomes once its date cell
    is read as [t]: same label, same amount, category and description. *)
Definition frame_row (i : nat) (r : row) (t : datetime) : frow datetime :=
  mk_frow i t (amount r) (category r) (description r).

(** What a query over a headed file returns, as one expression. *)
Definition select (a b : datetime) (f : csv_file) : list (frow datetime) :=
  filter (mask a b) (dropna (map coerce_date (number 0 (lines f)))).

(** What a query prints for the rows [xs] it returns. *)
Definition report {sums : Summation} (a b : datetime)
    (xs : list (frow datetime)) : list event :=
  match xs with
  | [] => [print_no_transactions]
  | _ :: _ => [print_transactions_from a b; print_table xs]
  end ++
  [print_summary;
   print_total_income (total_income xs);
   print_total_expense (total_expense xs);
   print_net_savings (PrimFloat.sub (total_income xs) (total_expense xs))].

Definition is_ok {A} (o : outcome A) : bool :=
  match o with Ok _ => true | Raise _ => false end.

Definition parses (s : string) : bool :=
  match strptime s with Some _ => true | None => false end.

(** The file without its data line [i]. *)
Definition without_line (i : nat) (f : csv_file) : csv_file :=
  mk_file (has_header f) (firstn i (lines f) ++ skipn (S i) (lines f)).

Definition with_disk (f : csv_file) (w : world) : world :=
  mk_world (Some f) (console w).

(** The spec's reading of what a total adds up,
    [amount for category = c]: the amounts of the rows of category
    [c], in the order of the rows. *)
Fixpoint amounts_for (c : string) (xs : list (frow datetime)) : list Q :=
  match xs with
  | [] => []
  | x :: xs' =>
      if String.eqb (cell_category x) c
      then cell_amount x :: amounts_for c xs'
      else amounts_for c xs'
  end.

(** Rows that are neither income nor expense, and what they add up to. *)
Definition is_other (x : frow datetime) : bool :=
  negb (String.eqb (cell_category x) "Income") &&
  negb (String.eqb (cell_category x) "Expense").

(** The sum of all the amounts of a result. *)
Definition total_amount {sums : Summation} (xs : list (frow datetime))
    : float :=
  series_sum (map cell_amount xs).





(** The world after [n] calls of [initialize_csv], each call starting
    where the one before stopped. *)
Fixpoint initialize_times (n : nat) (w : world) : world :=
  match n with
  | O => w
  | S n' => initialize_times n' (snd (CSV.initialize_csv w))
  end.

(** Worlds used as concrete inputs. *)
Definition first_run : world := mk_world None [].

Definition seeded : world :=
  mk_world (Some (mk_file true CSV.sample_data)) [].

Definition header_only : world := mk_world (Some (mk_file true [])) [].

Definition with_transfers : world :=
  mk_world
    (Some (mk_file true
       [ mk_row "01-03-2025" 100 "Income" "Gift";
         mk_row "02-03-2025" 40 "Transfer" "To savings";
         mk_row "03-03-2025" (-40) "Transfer" "From savings" ]))
    [].

Definition with_bad_date : world :=
  mk_world
    (Some (mk_file true
       [ mk_row "31-13-2025" 10 "Income" "Typo";
         mk_row "15-03-2025" (-75) "Expense" "Coffee" ]))
    [].

Definition coffee : row := mk_row "15-03-2025" (-75) "Expense" "Coffee".

Definition coffee_logged : world := mk_world (Some (mk_file true [coffee])) [].

(** What the seeded store holds for 01-01-2025 .. 03-01-2025. *)
Definition first_three_days : list (frow datetime) :=
  [ mk_frow 0%nat (mk_datetime 2025 1 1) 2000 "Income" "Salary";
    mk_frow 1%nat (mk_datetime 2025 1 2) (-150) "Expense" "Groceries";
    mk_frow 2%nat (mk_datetime 2025 1 3) 500 "Income" "Freelance work" ].

Definition view_february : answers :=
  mk_answers "2" coffee "01-02-2025" "28-02-2025" "y".

(** ** More vocabulary *)


(** The four events every pass of the menu starts with. *)
Definition menu_events : list event :=
  [print_menu_add; print_menu_view; print_menu_exit; prompt_choice].

(** What follows the report in a pass that views transactions. *)
Definition plot_dialogue (answer : string) (xs : list (frow datetime))
    : list event :=
  match xs with
  | [] => []
  | _ :: _ =>
      prompt_plot ::
      (if String.eqb (lower answer) "y" then [show_plot xs] else [])
  end.

Definition zero_bytes : world := mk_world (Some (mk_file false [])) [].

Definition typo : row := mk_row "31-13-2025" 10 "Income" "Typo".

Definition view_january : answers :=
  mk_answers "2" coffee "01-01-2025" "03-01-2025" "Y".

Definition add_coffee : answers := mk_answers "1" coffee "" "" "".

Definition mistyped_choice : answers := mk_answers "9" coffee "" "" "".

Definition leave : answers := mk_answers "3" coffee "" "" "".

(** ** Text that [read_csv] gives back as text *)

Definition is_letter (c : ascii) : bool :=
  between "a" "z" c || between "A" "Z" c.

(** The letters that numbers ([inf], [infinity], [nan], an exponent)
    and the missing-value tokens [NA] and [NaN] are written with. *)
Definition number_letter (c : ascii) : bool :=
  existsb (Ascii.eqb (lower_char c))
          ["a"; "e"; "f"; "i"; "n"; "t"; "y"]%char.

(** Words of letters that pandas reads as a missing value or as a
    boolean, whatever their case here. *)
Definition reserved_words : list string :=
  ["null"; "none"; "true"; "false"].

(** A cell of letters and blanks, with a letter no number is written
    with, and no reserved word: [csv] writes it as it stands and
    [read_csv] gives it back as the same text, whatever the other
    cells of its column. *)
Definition plain (s : string) : bool :=
  forallb (fun c => is_letter c || is_char " " c) (list_ascii_of_string s) &&
  existsb (fun c => is_letter c && negb (number_letter c))
          (list_ascii_of_string s) &&
  negb (existsb (String.eqb (lower s)) reserved_words).

Definition plain_row (r : row) : bool :=
  plain (category r) && plain (description r).

Definition plain_lines (rs : list row) : bool := forallb plain_row rs.

(** ** The entries a script writes *)

(** The entries the menu appends over a script, on a store that is
    absent or has its header; [present] tells whether the file exists
    when the script starts.  A pass that adds writes its entry (and
    makes the file exist); a pass that views goes on when the file
    exists and both bounds read, and ends the loop with an error
    otherwise; choice 3 ends the loop; any other choice goes on. *)
Fixpoint entries_written (present : bool) (script : list answers)
    : list row :=
  match script with
  | [] => []
  | a :: rest =>
      if String.eqb (choice a) "1" then entry a :: entries_written true rest
      else if String.eqb (choice a) "2" then
        if present && parses (start_answer a) && parses (end_answer a)
        then entries_written present rest
        else []
      else if String.eqb (choice a) "3" then []
      else entries_written present rest
  end.

(** ** One arithmetic to run the program with *)

(** [astype(float)] on one number: its numerator over its denominator,
    both as float64, which is the number itself when it is a float64
    and the two are. *)
Definition astype_float (q : Q) : float :=
  PrimFloat.div
    (SF2Prim (binary_normalize prec emax (Qnum q) 0 false))
    (SF2Prim (binary_normalize prec emax (Zpos (Qden q)) 0 false)).

(** The sum that adds from the first amount to the last.  Another
    order gives the same float64 as long as no addition rounds, as
    with the whole amounts of the inputs used below. *)
Definition first_to_last : Summation :=
  {| series_sum :=
       fun xs => fold_left PrimFloat.add (map astype_float xs) 0%float;
     series_sum_nil := eq_refl |}.

Section Properties.

Context {sums : Summation}.

(** ** Dates: the order of [Timestamp] values is the calendar's *)

Lemma is_leap_cases (y : Z) :
  (is_leap y = true /\ (y mod 4 = 0 /\ (y mod 100 <> 0 \/ y mod 400 = 0))) \/
  (is_leap y = false /\ (y mod 4 <> 0 \/ (y mod 100 = 0 /\ y mod 400 <> 0))).
Proof.
  unfold is_leap.
  destruct (Z.eqb_spec (y mod 4) 0), (Z.eqb_spec (y mod 100) 0),
    (Z.eqb_spec (y mod 400) 0); simpl; intuition lia.
Qed.

Lemma days_before_year_succ (y : Z) :
  days_before_year (y + 1) =
  days_before_year y + 365 + (if is_leap y then 1 else 0).
Proof.
  unfold days_before_year; cbv zeta.
  replace (y + 1 - 1) with y by lia.
  destruct (is_leap_cases y) as [[-> H] | [-> H]];
    Z.div_mod_to_equations; lia.
Qed.

Lemma days_before_year_mono (y1 y2 : Z) :
  y1 <= y2 -> days_before_year y1 <= days_before_year y2.
Proof.
  unfold days_before_year; cbv zeta; intros H.
  Z.div_mod_to_equations; lia.
Qed.

Lemma month_cases (m : Z) :
  1 <= m <= 12 ->
  m = 1 \/ m = 2 \/ m = 3 \/ m = 4 \/ m = 5 \/ m = 6 \/
  m = 7 \/ m = 8 \/ m = 9 \/ m = 10 \/ m = 11 \/ m = 12.
Proof. lia. Qed.

Lemma valid_date_fields (t : datetime) :
  valid_date t ->
  1 <= year t <= 9999 /\ 1 <= month t <= 12 /\
  1 <= day t <= days_in_month (year t) (month t).
Proof.
  unfold valid_date, check_date_fields; intros H.
  repeat (apply andb_prop in H; destruct H as [H ?]).
  repeat match goal with
         | H : (_ <=? _) = true |- _ => apply Z.leb_le in H
         end.
  lia.
Qed.

(** Evaluation of the month tables at a known month. *)
Ltac month_tables :=
  repeat match goal with
    | |- context [DAYS_BEFORE_MONTH ?k] =>
        let v := eval vm_compute in (DAYS_BEFORE_MONTH k) in
        change (DAYS_BEFORE_MONTH k) with v
    | |- context [DAYS_IN_MONTH ?k] =>
        let v := eval vm_compute in (DAYS_IN_MONTH k) in
        change (DAYS_IN_MONTH k) with v
    | |- context [?a <? ?b] =>
        let v := eval vm_compute in (a <? b) in change (a <? b) with v
    | |- context [?a =? ?b] =>
        let v := eval vm_compute in (a =? b) in change (a =? b) with v
    end;
  cbv beta iota delta [andb].

(** Within a year, the day of the year grows with (month, day). *)
Lemma day_of_year_bounds (y m d : Z) :
  1 <= m <= 12 -> 1 <= d <= days_in_month y m ->
  days_before_month y m < days_before_month y m + d /\
  days_before_month y m + d <=
    (if m =? 12 then 365 + (if is_leap y then 1 else 0)
     else days_before_month y (m + 1)).
Proof.
  intros Hm Hd; split; [lia|].
  revert Hd; unfold days_before_month, days_in_month.
  destruct (is_leap y);
    destruct (month_cases m Hm) as
      [->|[->|[->|[->|[->|[->|[->|[->|[->|[->|[->| ->]]]]]]]]]]];
    month_tables; lia.
Qed.

Lemma days_before_month_mono (y m1 m2 : Z) :
  1 <= m1 -> m1 <= m2 -> m2 <= 12 ->
  days_before_month y m1 <= days_before_month y m2.
Proof.
  intros H1 H12 H2.
  assert (Hm1 : 1 <= m1 <= 12) by lia.
  assert (Hm2 : 1 <= m2 <= 12) by lia.
  revert H12; unfold days_before_month.
  destruct (is_leap y);
    destruct (month_cases m1 Hm1) as
      [->|[->|[->|[->|[->|[->|[->|[->|[->|[->|[->| ->]]]]]]]]]]];
    destruct (month_cases m2 Hm2) as
      [->|[->|[->|[->|[->|[->|[->|[->|[->|[->|[->| ->]]]]]]]]]]];
    month_tables; lia.
Qed.

Lemma toordinal_year_bounds (t : datetime) :
  valid_date t ->
  days_before_year (year t) < toordinal t <= days_before_year (year t + 1).
Proof.
  intros H; destruct (valid_date_fields t H) as (Hy & Hm & Hd).
  unfold toordinal; rewrite days_before_year_succ.
  destruct (day_of_year_bounds (year t) (month t) (day t) Hm Hd) as [Hlo Hhi].
  assert (0 <= days_before_month (year t) (month t)).
  { transitivity (days_before_month (year t) 1).
    - unfold days_before_month; month_tables; lia.
    - apply days_before_month_mono; lia. }
  destruct (Z.eqb_spec (month t) 12) as [E|E].
  - lia.
  - assert (days_before_month (year t) (month t + 1) <=
            days_before_month (year t) 12)
      by (apply days_before_month_mono; lia).
    assert (days_before_month (year t) 12 <=
            365 + (if is_leap (year t) then 1 else 0))
      by (unfold days_before_month; destruct (is_leap (year t));
          month_tables; lia).
    lia.
Qed.

Lemma toordinal_lt_of_calendar (a b : datetime) :
  valid_date a -> valid_date b ->
  year a < year b \/
  (year a = year b /\
   (month a < month b \/ (month a = month b /\ day a < day b))) ->
  toordinal a < toordinal b.
Proof.
  intros Ha Hb [Hy | [Hy [Hm | [Hm Hd]]]].
  - pose proof (toordinal_year_bounds a Ha) as [_ H1].
    pose proof (toordinal_year_bounds b Hb) as [H2 _].
    pose proof (days_before_year_mono (year a + 1) (year b)); lia.
  - destruct (valid_date_fields a Ha) as (_ & Hma & Hda).
    destruct (valid_date_fields b Hb) as (_ & Hmb & Hdb).
    unfold toordinal; rewrite Hy.
    destruct (day_of_year_bounds (year b) (month a) (day a) Hma) as [_ H1];
      [rewrite <- Hy; exact Hda|].
    destruct (Z.eqb_spec (month a) 12); [lia|].
    pose proof (days_before_month_mono (year b) (month a + 1) (month b)).
    lia.
  - unfold toordinal; rewrite Hy, Hm; lia.
Qed.

Lemma calendar_le_total (a b : datetime) :
  calendar_le a b \/
  (year b < year a \/
   (year b = year a /\
    (month b < month a \/ (month b = month a /\ day b < day a)))).
Proof. unfold calendar_le; lia. Qed.

Lemma toordinal_calendar_le (a b : datetime) :
  valid_date a -> valid_date b ->
  (toordinal a <= toordinal b <-> calendar_le a b).
Proof.
  intros Ha Hb; split; intros H.
  - destruct (calendar_le_total a b) as [Hc | Hc]; [exact Hc|].
    pose proof (toordinal_lt_of_calendar b a Hb Ha Hc); lia.
  - unfold calendar_le in H.
    destruct (Z.eq_dec (day a) (day b)) as [Ed | Ed].
    + destruct H as [Hy | [Hy [Hm | [Hm Hd]]]].
      * pose proof (toordinal_lt_of_calendar a b Ha Hb (or_introl Hy)); lia.
      * pose proof (toordinal_lt_of_calendar a b Ha Hb
                      (or_intror (conj Hy (or_introl Hm)))); lia.
      * unfold toordinal; rewrite Hy, Hm, Ed; lia.
    + assert (toordinal a < toordinal b); [|lia].
      apply toordinal_lt_of_calendar; auto; lia.
Qed.

Lemma ts_le_calendar (a b : datetime) :
  valid_date a -> valid_date b ->
  (ts_le a b = true <-> calendar_le a b).
Proof.
  intros Ha Hb; rewrite <- (toordinal_calendar_le a b Ha Hb).
  unfold ts_le, Timestamp_value; rewrite Z.leb_le; lia.
Qed.

Lemma ts_ge_calendar (a b : datetime) :
  valid_date a -> valid_date b ->
  (ts_ge a b = true <-> calendar_le b a).
Proof.
  intros Ha Hb; rewrite <- (toordinal_calendar_le b a Hb Ha).
  unfold ts_ge, Timestamp_value; rewrite Z.leb_le; lia.
Qed.

Lemma datetime_new_valid (y m d : Z) (t : datetime) :
  datetime_new y m d = Some t -> valid_date t.
Proof.
  unfold datetime_new, valid_date.
  destruct (check_date_fields y m d) eqn:E; [|discriminate].
  intros [= <-]; exact E.
Qed.

Lemma strptime_valid (s : string) (t : datetime) :
  strptime s = Some t -> valid_date t.
Proof.
  unfold strptime.
  destruct (format_match s) as [[[[d m] y] [|c rest]]|]; try discriminate.
  apply datetime_new_valid.
Qed.

(** ** The query, step by step *)

Lemma get_transactions_ok (w : world) (f : csv_file)
    (start_date end_date : string) (a b : datetime) :
  disk w = Some f -> has_header f = true ->
  strptime start_date = Some a -> strptime end_date = Some b ->
  CSV.get_transactions start_date end_date w =
  (Ok (mk_df true (select a b f)),
   mk_world (disk w) (console w ++ report a b (select a b f))).
Proof.
  intros Hd Hh Hs He.
  unfold CSV.get_transactions, bind, read_csv, columns_or_raise,
    strptime_or_raise.
  rewrite Hd, Hh; cbn [named rows ret]; rewrite Hs, He; cbn [ret].
  unfold report, select, empty; cbn [rows].
  destruct (filter (mask a b) (dropna (map coerce_date (number 0 (lines f)))))
    as [|x xs]; unfold emit; cbn [disk console];
    rewrite <- ?app_assoc; cbn [app]; rewrite Hd; reflexivity.
Qed.

Lemma get_transactions_is_ok (w : world) (start_date end_date : string) :
  is_ok (fst (CSV.get_transactions start_date end_date w)) =
  match disk w with
  | None => false
  | Some f => has_header f && parses start_date && parses end_date
  end.
Proof.
  destruct (disk w) as [f|] eqn:Hd.
  - destruct (has_header f) eqn:Hh.
    + unfold parses.
      destruct (strptime start_date) as [a|] eqn:Hs.
      * destruct (strptime end_date) as [b|] eqn:He.
        -- rewrite (get_transactions_ok w f _ _ a b Hd Hh Hs He); reflexivity.
        -- unfold CSV.get_transactions, bind, read_csv, columns_or_raise,
             strptime_or_raise.
           rewrite Hd, Hh; cbn [named ret]; rewrite Hs, He; reflexivity.
      * unfold CSV.get_transactions, bind, read_csv, columns_or_raise,
          strptime_or_raise.
        rewrite Hd, Hh; cbn [named ret]; rewrite Hs; reflexivity.
    + unfold CSV.get_transactions, bind, read_csv, columns_or_raise.
      rewrite Hd, Hh; destruct (lines f); reflexivity.
  - unfold CSV.get_transactions, bind, read_csv; rewrite Hd; reflexivity.
Qed.

(** A query that raises has printed nothing and written nothing. *)
Lemma get_transactions_raise_world (w : world) (start_date end_date : string)
    (e : exn) :
  fst (CSV.get_transactions start_date end_date w) = Raise e ->
  snd (CSV.get_transactions start_date end_date w) = w.
Proof.
  unfold CSV.get_transactions, bind, read_csv, columns_or_raise,
    strptime_or_raise.
  destruct (disk w) as [f|]; [|reflexivity].
  destruct (has_header f).
  - cbn [named ret].
    destruct (strptime start_date); [|reflexivity].
    destruct (strptime end_date); [|reflexivity].
    cbn [ret]; unfold empty; cbn [rows].
    destruct (filter _ _); discriminate.
  - destruct (lines f); reflexivity.
Qed.

Lemma get_transactions_bad_start (w : world) (f : csv_file)
    (start_date end_date : string) :
  disk w = Some f -> has_header f = true ->
  strptime start_date = None ->
  CSV.get_transactions start_date end_date w = (Raise ValueError, w).
Proof.
  intros Hd Hh Hs.
  unfold CSV.get_transactions, bind, read_csv, columns_or_raise,
    strptime_or_raise.
  rewrite Hd, Hh; cbn [named ret]; rewrite Hs; reflexivity.
Qed.

Lemma get_transactions_bad_end (w : world) (f : csv_file)
    (start_date end_date : string) (a : datetime) :
  disk w = Some f -> has_header f = true ->
  strptime start_date = Some a -> strptime end_date = None ->
  CSV.get_transactions start_date end_date w = (Raise ValueError, w).
Proof.
  intros Hd Hh Hs He.
  unfold CSV.get_transactions, bind, read_csv, columns_or_raise,
    strptime_or_raise.
  rewrite Hd, Hh; cbn [named ret]; rewrite Hs, He; reflexivity.
Qed.

(** ** Which lines a query returns *)

Lemma In_dropna_number (rs : list row) (i : nat) (x : frow datetime) :
  In x (dropna (map coerce_date (number i rs))) <->
  exists j r,
    nth_error rs j = Some r /\
    strptime (date r) = Some (cell_date x) /\
    x = frame_row (i + j) r (cell_date x).
Proof.
  revert i; induction rs as [|r0 rs IH]; intros i; cbn [number map dropna].
  - split; [intros [] | intros ([|j] & r & H & _); discriminate].
  - unfold coerce_date at 1, to_datetime; cbn [cell_date label cell_amount
      cell_category cell_description].
    destruct (strptime (date r0)) as [t|] eqn:Ht.
    + split.
      * intros [<- | H].
        -- exists 0%nat, r0; cbn [nth_error cell_date].
           rewrite Nat.add_0_r; auto.
        -- apply IH in H; destruct H as (j & r & Hj & Hr & Hx).
           exists (S j), r; cbn [nth_error].
           rewrite Nat.add_succ_r; auto.
      * intros ([|j] & r & Hj & Hr & Hx); cbn [nth_error] in Hj.
        -- injection Hj as <-; left.
           rewrite Hx; unfold frame_row; rewrite Nat.add_0_r.
           rewrite Ht in Hr; injection Hr as ->; reflexivity.
        -- right; apply IH; exists j, r.
           rewrite Nat.add_succ_r in Hx; auto.
    + split.
      * intros H; apply IH in H; destruct H as (j & r & Hj & Hr & Hx).
        exists (S j), r; cbn [nth_error].
        rewrite Nat.add_succ_r; auto.
      * intros ([|j] & r & Hj & Hr & Hx); cbn [nth_error] in Hj.
        -- injection Hj as <-; congruence.
        -- apply IH; exists j, r.
           rewrite Nat.add_succ_r in Hx; auto.
Qed.

Lemma In_select (a b : datetime) (f : csv_file) (x : frow datetime) :
  In x (select a b f) <->
  exists j r,
    nth_error (lines f) j = Some r /\
    strptime (date r) = Some (cell_date x) /\
    x = frame_row j r (cell_date x) /\
    mask a b x = true.
Proof.
  unfold select; rewrite filter_In, In_dropna_number.
  split.
  - intros [(j & r & Hj & Hr & Hx) Hm]; exists j, r; auto.
  - intros (j & r & Hj & Hr & Hx & Hm); split; [exists j, r|]; auto.
Qed.

Lemma mask_calendar (a b : datetime) (x : frow datetime) :
  valid_date a -> valid_date b -> valid_date (cell_date x) ->
  (mask a b x = true <->
   calendar_le a (cell_date x) /\ calendar_le (cell_date x) b).
Proof.
  intros Ha Hb Hx; unfold mask.
  rewrite andb_true_iff, ts_ge_calendar, ts_le_calendar by assumption.
  reflexivity.
Qed.

(** The rows a query returns are the lines whose date lies between
    the bounds in the order of the calendar. *)
Lemma In_select_calendar (a b : datetime) (f : csv_file)
    (i : nat) (r : row) (t : datetime) :
  valid_date a -> valid_date b ->
  nth_error (lines f) i = Some r -> strptime (date r) = Some t ->
  (In (frame_row i r t) (select a b f) <->
   calendar_le a t /\ calendar_le t b).
Proof.
  intros Va Vb Hi Ht.
  pose proof (strptime_valid _ _ Ht) as Vt.
  rewrite <- (mask_calendar a b (frame_row i r t) Va Vb Vt).
  rewrite In_select; split.
  - intros (j & r' & _ & _ & _ & Hm); exact Hm.
  - intros Hm; exists i, r; auto.
Qed.

(** C1. A stored line whose date reads as a date is returned by a query
    with well-formed bounds exactly when that date lies between the two
    bounds in the order of the calendar, each bound included. *)
Theorem get_transactions_in_range :
  forall (w : world) (f : csv_file) (start_date end_date : string)
         (a b : datetime),
    disk w = Some f -> has_header f = true ->
    strptime start_date = Some a -> strptime end_date = Some b ->
    exists df,
      fst (CSV.get_transactions start_date end_date w) = Ok df /\
      forall (i : nat) (r : row) (t : datetime),
        nth_error (lines f) i = Some r -> strptime (date r) = Some t ->
        (In (frame_row i r t) (rows df) <->
         calendar_le a t /\ calendar_le t b).
Proof.
  intros w f start_date end_date a b Hd Hh Hs He.
  rewrite (get_transactions_ok w f _ _ a b Hd Hh Hs He).
  eexists; split; [reflexivity|]; cbn [rows fst].
  intros i r t Hi Ht.
  apply In_select_calendar; eauto using strptime_valid.
Qed.

Lemma get_transactions_inv (w : world) (start_date end_date : string)
    (df : DataFrame datetime) :
  fst (CSV.get_transactions start_date end_date w) = Ok df ->
  exists f a b,
    disk w = Some f /\ has_header f = true /\
    strptime start_date = Some a /\ strptime end_date = Some b /\
    df = mk_df true (select a b f).
Proof.
  intros H.
  pose proof (get_transactions_is_ok w start_date end_date) as Hok.
  rewrite H in Hok; cbn [is_ok] in Hok.
  destruct (disk w) as [f|] eqn:Hd; [|discriminate].
  symmetry in Hok; apply andb_prop in Hok; destruct Hok as [Hok He].
  apply andb_prop in Hok; destruct Hok as [Hh Hs].
  unfold parses in Hs, He.
  destruct (strptime start_date) as [a|] eqn:Ea; [|discriminate].
  destruct (strptime end_date) as [b|] eqn:Eb; [|discriminate].
  exists f, a, b; repeat split; auto.
  rewrite (get_transactions_ok w f _ _ a b Hd Hh Ea Eb) in H.
  cbn [fst] in H; congruence.
Qed.

(** C6. A line of the store (the file with its header) whose date does
    not read as a date under the format is in the result of no query,
    whatever the range, and the query succeeds or fails alike with that
    line in the file or not. *)
Theorem unparseable_date_excluded :
  forall (w : world) (f : csv_file) (start_date end_date : string)
         (i : nat) (r : row),
    disk w = Some f -> has_header f = true ->
    nth_error (lines f) i = Some r ->
    strptime (date r) = None ->
    (forall df,
        fst (CSV.get_transactions start_date end_date w) = Ok df ->
        forall x, In x (rows df) -> label x <> i) /\
    is_ok (fst (CSV.get_transactions start_date end_date w)) =
    is_ok (fst (CSV.get_transactions start_date end_date
                  (with_disk (without_line i f) w))).
Proof.
  intros w f start_date end_date i r Hd Hh Hi Hr; split.
  - intros df Hdf x Hx Hl.
    apply get_transactions_inv in Hdf.
    destruct Hdf as (f' & a & b & Hd' & _ & _ & _ & ->).
    rewrite Hd in Hd'; injection Hd' as <-.
    cbn [rows] in Hx; apply In_select in Hx.
    destruct Hx as (j & r' & Hj & Hr' & Hx & _).
    rewrite Hx in Hl; cbn [frame_row label] in Hl; subst j.
    congruence.
  - rewrite !get_transactions_is_ok, Hd; cbn [with_disk disk without_line
      has_header]; reflexivity.
Qed.

(** C9. A start or end bound that does not read as a date under the
    format makes the query raise: it returns no frame, empty or not;
    over a store with its header the error is the [ValueError] of
    [strptime], and nothing has been printed. *)
Theorem get_transactions_bad_bound :
  forall (w : world) (start_date end_date : string),
    strptime start_date = None \/ strptime end_date = None ->
    (exists e, fst (CSV.get_transactions start_date end_date w) = Raise e) /\
    (forall f, disk w = Some f -> has_header f = true ->
       fst (CSV.get_transactions start_date end_date w) = Raise ValueError) /\
    snd (CSV.get_transactions start_date end_date w) = w.
Proof.
  intros w start_date end_date Hbad.
  assert (Hraise : exists e,
             fst (CSV.get_transactions start_date end_date w) = Raise e).
  { pose proof (get_transactions_is_ok w start_date end_date) as Hok.
    destruct (fst (CSV.get_transactions start_date end_date w)) as [df|e];
      [|eauto].
    cbn [is_ok] in Hok.
    destruct (disk w) as [f|]; [|discriminate].
    unfold parses in Hok.
    destruct Hbad as [E | E]; rewrite E, ?andb_false_r in Hok;
      discriminate. }
  split; [exact Hraise|split].
  - intros f Hd Hh.
    unfold CSV.get_transactions, bind, read_csv, columns_or_raise,
      strptime_or_raise.
    rewrite Hd, Hh; cbn [named ret].
    destruct Hbad as [Hs | He]; [rewrite Hs; reflexivity|].
    destruct (strptime start_date); [cbn [ret]; rewrite He|]; reflexivity.
  - destruct Hraise as [e He].
    exact (get_transactions_raise_world w _ _ e He).
Qed.

(** ** The totals *)

Lemma total_amounts_for (c : string) (xs : list (frow datetime)) :
  total c xs = series_sum (amounts_for c xs).
Proof.
  unfold total; f_equal.
  induction xs as [|x xs IH]; cbn [filter map amounts_for]; [reflexivity|].
  destruct (String.eqb (cell_category x) c); cbn [map]; rewrite IH;
    reflexivity.
Qed.


(** ** An empty result *)

Lemma report_nil (a b : datetime) :
  report a b [] =
  [print_no_transactions; print_summary; print_total_income 0;
   print_total_expense 0; print_net_savings 0].
Proof.
  unfold report, total_income, total_expense, total; cbn [filter map app].
  rewrite series_sum_nil; reflexivity.
Qed.

(** C7, amended. When the result is empty the query prints the notice,
    no range line and no table, and then the summary with its three
    figures at zero; nothing else is printed. *)
Theorem empty_result_report :
  forall (w : world) (start_date end_date : string) (df : DataFrame datetime),
    fst (CSV.get_transactions start_date end_date w) = Ok df ->
    rows df = [] ->
    console (snd (CSV.get_transactions start_date end_date w)) =
    console w ++
    [print_no_transactions; print_summary; print_total_income 0;
     print_total_expense 0; print_net_savings 0].
Proof.
  intros w start_date end_date df H Hempty.
  destruct (get_transactions_inv w _ _ df H)
    as (f & a & b & Hd & Hh & Hs & He & ->).
  rewrite (get_transactions_ok w f _ _ a b Hd Hh Hs He).
  cbn [rows] in Hempty; cbn [snd console].
  rewrite Hempty, report_nil; reflexivity.
Qed.

Lemma select_nil (a b : datetime) (f : csv_file) :
  valid_date a -> valid_date b ->
  (forall r t, In r (lines f) -> strptime (date r) = Some t ->
     ~ (calendar_le a t /\ calendar_le t b)) ->
  select a b f = [].
Proof.
  intros Va Vb Hnone.
  destruct (select a b f) as [|x xs] eqn:E; [reflexivity|exfalso].
  assert (Hx : In x (select a b f)) by (rewrite E; left; reflexivity).
  apply In_select in Hx; destruct Hx as (j & r & Hj & Hr & _ & Hm).
  apply (Hnone r (cell_date x)); [eapply nth_error_In; eauto|exact Hr|].
  apply (mask_calendar a b x Va Vb (strptime_valid _ _ Hr)); exact Hm.
Qed.

(** C8. When no stored line has a date that reads as a date inside the
    range, the query returns an empty frame and raises nothing, the
    notice is printed, and the menu pass that asked for it ends
    normally, without a plot, with the store untouched, and the loop
    goes on to its next pass. *)
Theorem no_match_is_not_an_error :
  forall (w : world) (f : csv_file) (start_date end_date : string)
         (a b : datetime),
    disk w = Some f -> has_header f = true ->
    strptime start_date = Some a -> strptime end_date = Some b ->
    (forall r t, In r (lines f) -> strptime (date r) = Some t ->
       ~ (calendar_le a t /\ calendar_le t b)) ->
    CSV.get_transactions start_date end_date w =
      (Ok (mk_df true []),
       mk_world (disk w) (console w ++ report a b [])) /\
    In print_no_transactions (report a b []) /\
    forall ans : answers,
      choice ans = "2" ->
      start_answer ans = start_date -> end_answer ans = end_date ->
      main_body ans w =
        (Ok Continue,
         mk_world (disk w)
           (console w ++
            [print_menu_add; print_menu_view; print_menu_exit; prompt_choice]
            ++ report a b [])) /\
      forall script : list answers,
        main (ans :: script) w = main script (snd (main_body ans w)).
Proof.
  intros w f start_date end_date a b Hd Hh Hs He Hnone.
  pose proof (select_nil a b f (strptime_valid _ _ Hs)
                (strptime_valid _ _ He) Hnone) as Hsel.
  assert (Hq : forall w', disk w' = Some f ->
             CSV.get_transactions start_date end_date w' =
             (Ok (mk_df true []),
              mk_world (disk w') (console w' ++ report a b []))).
  { intros w' Hd'.
    rewrite (get_transactions_ok w' f _ _ a b Hd' Hh Hs He), Hsel.
    reflexivity. }
  split; [exact (Hq w Hd)|split; [left; reflexivity|]].
  intros ans Hc Hsa Hea.
  assert (Hbody : main_body ans w =
            (Ok Continue,
             mk_world (disk w)
               (console w ++
                [print_menu_add; print_menu_view; print_menu_exit;
                 prompt_choice] ++ report a b []))).
  { unfold main_body; rewrite Hc, Hsa, Hea.
    change (String.eqb "2" "1") with false.
    change (String.eqb "2" "2") with true.
    cbv iota.
    unfold bind at 1 2 3 4; unfold emit at 1 2 3 4; cbn [disk console].
    unfold bind at 1 2.
    rewrite Hq by exact Hd.
    cbn [empty rows negb ret disk console].
    rewrite <- !app_assoc; reflexivity. }
  split; [exact Hbody|].
  intros script; cbn [main]; unfold bind at 1.
  rewrite Hbody; reflexivity.
Qed.

(** ** Rows of another category *)

Lemma total_without_other (c : string) (xs : list (frow datetime)) :
  c = "Income" \/ c = "Expense" ->
  total c (filter (fun x => negb (is_other x)) xs) = total c xs.
Proof.
  intros Hc; unfold total; f_equal; f_equal.
  induction xs as [|x xs IH]; [reflexivity|].
  cbn [filter]; unfold is_other at 1.
  destruct (String.eqb (cell_category x) c) eqn:E.
  - assert (Hkeep : negb (negb (String.eqb (cell_category x) "Income") &&
                          negb (String.eqb (cell_category x) "Expense"))
                    = true).
    { apply String.eqb_eq in E; rewrite E.
      destruct Hc as [-> | ->]; reflexivity. }
    rewrite Hkeep; cbn [filter]; rewrite E, IH; reflexivity.
  - destruct (negb _); cbn [filter]; rewrite ?E; exact IH.
Qed.

(** C10, amended. A stored line whose category is neither [Income] nor
    [Expense] is returned when its date is in range, and it enters
    neither total: the income total and the expense total are the ones
    of the result without the rows of other categories. *)
Theorem other_category_rows :
  forall (w : world) (f : csv_file) (start_date end_date : string)
         (a b : datetime),
    disk w = Some f -> has_header f = true ->
    strptime start_date = Some a -> strptime end_date = Some b ->
    exists df,
      fst (CSV.get_transactions start_date end_date w) = Ok df /\
      (forall (i : nat) (r : row) (t : datetime),
          nth_error (lines f) i = Some r -> strptime (date r) = Some t ->
          calendar_le a t /\ calendar_le t b ->
          category r <> "Income" -> category r <> "Expense" ->
          In (frame_row i r t) (rows df) /\
          is_other (frame_row i r t) = true) /\
      total_income (filter (fun x => negb (is_other x)) (rows df)) =
        total_income (rows df) /\
      total_expense (filter (fun x => negb (is_other x)) (rows df)) =
        total_expense (rows df).
Proof.
  intros w f start_date end_date a b Hd Hh Hs He.
  exists (mk_df true (select a b f)).
  rewrite (get_transactions_ok w f _ _ a b Hd Hh Hs He); cbn [fst rows].
  split; [reflexivity|split].
  - intros i r t Hi Ht Hrange Hni Hne; split.
    + apply In_select_calendar; eauto using strptime_valid.
    + unfold is_other, frame_row; cbn [cell_category].
      apply String.eqb_neq in Hni, Hne; rewrite Hni, Hne; reflexivity.
  - split; apply total_without_other; auto.
Qed.

(** ** Appending, then querying *)

Lemma add_entry_run (w : world) (r : row) :
  CSV.add_entry (date r) (amount r) (category r) (description r) w =
  (Ok tt,
   mk_world
     (Some match disk w with
           | None => mk_file false [r]
           | Some f => mk_file (has_header f) (lines f ++ [r])
           end)
     (console w ++ [print_entry_added])).
Proof. destruct r; reflexivity. Qed.

Lemma number_app (rs rs' : list row) (i : nat) :
  number i (rs ++ rs') = number i rs ++ number (i + List.length rs) rs'.
Proof.
  revert i; induction rs as [|r rs IH]; intros i; cbn [app number List.length].
  - rewrite Nat.add_0_r; reflexivity.
  - rewrite IH, Nat.add_succ_r; reflexivity.
Qed.

Lemma dropna_app (xs ys : list (frow (option datetime))) :
  dropna (xs ++ ys) = dropna xs ++ dropna ys.
Proof.
  induction xs as [|x xs IH]; cbn [app dropna]; [reflexivity|].
  destruct (cell_date x); rewrite IH; reflexivity.
Qed.

Lemma select_append (a b t : datetime) (f : csv_file) (r : row) :
  strptime (date r) = Some t ->
  mask a b (frame_row (List.length (lines f)) r t) = true ->
  select a b (mk_file (has_header f) (lines f ++ [r])) =
  select a b f ++ [frame_row (List.length (lines f)) r t].
Proof.
  intros Ht Hm; unfold select; cbn [lines].
  rewrite number_app, map_app, dropna_app, filter_app.
  f_equal.
  cbn [number map dropna Nat.add]; unfold coerce_date, to_datetime;
    cbn [cell_date label cell_amount cell_category cell_description].
  rewrite Ht; cbn [filter]; fold (frame_row (List.length (lines f)) r t).
  rewrite Hm; reflexivity.
Qed.





(** ** Initialisation *)

Lemma initialize_csv_present (w : world) (f : csv_file) :
  disk w = Some f ->
  CSV.initialize_csv w =
  (match has_header f, lines f with
   | false, [] => Raise EmptyDataError
   | _, _ => Ok tt
   end, w).
Proof.
  intros Hd; unfold CSV.initialize_csv, except_FileNotFoundError, bind,
    read_csv; rewrite Hd.
  destruct (has_header f); [reflexivity|].
  destruct (lines f); reflexivity.
Qed.

Lemma initialize_csv_absent (w : world) :
  disk w = None ->
  CSV.initialize_csv w =
  (Ok tt,
   mk_world (Some (mk_file true CSV.sample_data))
            (console w ++ [print_sample_data_added])).
Proof.
  intros Hd; unfold CSV.initialize_csv, except_FileNotFoundError, bind,
    read_csv; rewrite Hd; reflexivity.
Qed.

Lemma initialize_times_present (n : nat) (w : world) (f : csv_file) :
  disk w = Some f -> initialize_times n w = w.
Proof.
  intros Hd; induction n as [|n IH]; cbn [initialize_times]; [reflexivity|].
  rewrite (initialize_csv_present w f Hd); exact IH.
Qed.

Lemma sample_data_dates_NoDup : NoDup (map date CSV.sample_data).
Proof.
  cbn [map CSV.sample_data date].
  repeat (constructor; [cbn [In]; intuition discriminate|]).
  constructor.
Qed.

Lemma sample_data_NoDup : NoDup CSV.sample_data.
Proof. exact (NoDup_map_inv date _ sample_data_dates_NoDup). Qed.

(** C4. [initialize_csv] leaves an existing file as it is, seeded or
    not, and returns normally when the file has its header; called
    again it changes nothing more; after any number of calls on an
    absent file the store holds the 15 seed records once each. *)
Theorem initialize_csv_idempotent :
  (forall (w : world) (f : csv_file),
      disk w = Some f ->
      snd (CSV.initialize_csv w) = w /\
      (has_header f = true -> fst (CSV.initialize_csv w) = Ok tt)) /\
  (forall w : world,
      snd (CSV.initialize_csv (snd (CSV.initialize_csv w))) =
      snd (CSV.initialize_csv w)) /\
  (forall (n : nat) (w : world),
      initialize_times (S n) w = snd (CSV.initialize_csv w)) /\
  (forall (n : nat) (w : world),
      disk w = None ->
      disk (initialize_times (S n) w) =
      Some (mk_file true CSV.sample_data)) /\
  NoDup CSV.sample_data /\
  List.length CSV.sample_data = 15%nat.
Proof.
  assert (Hafter : forall w, exists f, disk (snd (CSV.initialize_csv w)) = Some f).
  { intros w; destruct (disk w) as [f|] eqn:Hd.
    - rewrite (initialize_csv_present w f Hd); eauto.
    - rewrite (initialize_csv_absent w Hd); cbn [snd disk]; eauto. }
  assert (Htimes : forall n w,
             initialize_times (S n) w = snd (CSV.initialize_csv w)).
  { intros n w; cbn [initialize_times].
    destruct (Hafter w) as [f Hf].
    exact (initialize_times_present n _ f Hf). }
  split; [|split; [|split; [exact Htimes|split; [|split]]]].
  - intros w f Hd; rewrite (initialize_csv_present w f Hd); split.
    + reflexivity.
    + intros ->; reflexivity.
  - intros w; destruct (Hafter w) as [f Hf].
    rewrite (initialize_csv_present _ f Hf); reflexivity.
  - intros n w Hd; rewrite Htimes, (initialize_csv_absent w Hd).
    reflexivity.
  - exact sample_data_NoDup.
  - reflexivity.
Qed.

(** C5. On an absent file [initialize_csv] first writes the file with
    its header and no data line, then appends the 15 seed records:
    dates 01-01-2025 to 15-01-2025, with the amounts, categories and
    descriptions of the table; the file then holds data. *)
Theorem initialize_csv_seeds :
  forall c : list event,
    snd (to_csv (mk_df true []) (mk_world None c)) =
      mk_world (Some (mk_file true [])) c /\
    CSV.initialize_csv (mk_world None c) =
      CSV.add_sample_data (mk_df true [])
        (snd (to_csv (mk_df true []) (mk_world None c))) /\
    CSV.initialize_csv (mk_world None c) =
      (Ok tt,
       mk_world (Some (mk_file true CSV.sample_data))
                (c ++ [print_sample_data_added])) /\
    List.length CSV.sample_data = 15%nat /\
    CSV.sample_data <> [] /\
    map date CSV.sample_data =
      ["01-01-2025"; "02-01-2025"; "03-01-2025"; "04-01-2025"; "05-01-2025";
       "06-01-2025"; "07-01-2025"; "08-01-2025"; "09-01-2025"; "10-01-2025";
       "11-01-2025"; "12-01-2025"; "13-01-2025"; "14-01-2025"; "15-01-2025"] /\
    map (fun r => strptime (date r)) CSV.sample_data =
      map (fun d => Some (mk_datetime 2025 1 d))
          [1; 2; 3; 4; 5; 6; 7; 8; 9; 10; 11; 12; 13; 14; 15] /\
    map amount CSV.sample_data =
      [2000; -150; 500; -200; -100; 1000; -50; -300; 1500; -250; 100;
       -200; -150; 2500; -300]%Q /\
    map category CSV.sample_data =
      ["Income"; "Expense"; "Income"; "Expense"; "Expense"; "Income";
       "Expense"; "Expense"; "Income"; "Expense"; "Income"; "Expense";
       "Expense"; "Income"; "Expense"] /\
    map description CSV.sample_data =
      ["Salary"; "Groceries"; "Freelance work"; "Transport"; "Entertainment";
       "Investment Returns"; "Snacks"; "Rent"; "Freelance work"; "Utilities";
       "Side project"; "Groceries"; "Transport"; "Salary"; "Insurance"].
Proof.
  intros c; split; [reflexivity|].
  split; [reflexivity|].
  split; [exact (initialize_csv_absent (mk_world None c) eq_refl)|].
  split; [reflexivity|].
  split; [discriminate|].
  split; [reflexivity|].
  split; [vm_compute; reflexivity|].
  repeat split.
Qed.

(** * Further properties of the code *)

(** ** The query: what it returns, in which order, and what it leaves *)

Lemma calendar_le_trans (a b c : datetime) :
  calendar_le a b -> calendar_le b c -> calendar_le a c.
Proof. unfold calendar_le; lia. Qed.


Lemma dropna_number_cons (r : row) (rs : list row) (i : nat) :
  dropna (map coerce_date (number i (r :: rs))) =
  match strptime (date r) with
  | Some t => frame_row i r t :: dropna (map coerce_date (number (S i) rs))
  | None => dropna (map coerce_date (number (S i) rs))
  end.
Proof.
  cbn [number map dropna]; unfold coerce_date at 1 2 3 4 5, to_datetime.
  cbn [cell_date label cell_amount cell_category cell_description].
  destruct (strptime (date r)); reflexivity.
Qed.

Lemma labels_sorted (p : frow datetime -> bool) (rs : list row) (i : nat) :
  StronglySorted lt
    (map label (filter p (dropna (map coerce_date (number i rs))))) /\
  Forall (fun n => (i <= n)%nat)
    (map label (filter p (dropna (map coerce_date (number i rs))))).
Proof.
  revert i; induction rs as [|r rs IH]; intros i.
  - split; constructor.
  - rewrite dropna_number_cons.
    destruct (IH (S i)) as [Hs Hf].
    assert (Hf' : Forall (fun n => (i <= n)%nat)
              (map label
                 (filter p (dropna (map coerce_date (number (S i) rs)))))).
    { eapply Forall_impl; [|exact Hf]; cbv beta; intros; lia. }
    destruct (strptime (date r)) as [t|]; [|split; assumption].
    cbn [filter]; destruct (p _); [|split; assumption].
    cbn [map label frame_row]; split; constructor; auto.
Qed.

(** X2. A query returns the rows in the order of the file, each line at
    most once: the labels of the result increase strictly. *)
Theorem returned_rows_in_file_order :
  forall (w : world) (start_date end_date : string) (df : DataFrame datetime),
    fst (CSV.get_transactions start_date end_date w) = Ok df ->
    StronglySorted lt (map label (rows df)).
Proof.
  intros w start_date end_date df H.
  destruct (get_transactions_inv w _ _ df H)
    as (f & a & b & _ & _ & _ & _ & ->).
  cbn [rows]; unfold select.
  exact (proj1 (labels_sorted (mask a b) (lines f) 0)).
Qed.

Lemma get_transactions_disk (w : world) (start_date end_date : string) :
  disk (snd (CSV.get_transactions start_date end_date w)) = disk w.
Proof.
  destruct (fst (CSV.get_transactions start_date end_date w)) as [df|e] eqn:H.
  - destruct (get_transactions_inv w _ _ df H)
      as (f & a & b & Hd & Hh & Hs & He & _).
    rewrite (get_transactions_ok w f _ _ a b Hd Hh Hs He); reflexivity.
  - rewrite (get_transactions_raise_world w _ _ e H); reflexivity.
Qed.

(** X3. A query never writes: the file is the same after it, whether
    it returns or raises, and asked again with the same bounds it
    returns the same frame or raises the same error. *)
Theorem query_never_writes :
  forall (w : world) (start_date end_date : string),
    disk (snd (CSV.get_transactions start_date end_date w)) = disk w /\
    fst (CSV.get_transactions start_date end_date
           (snd (CSV.get_transactions start_date end_date w))) =
    fst (CSV.get_transactions start_date end_date w).
Proof.
  intros w start_date end_date; split; [apply get_transactions_disk|].
  destruct (fst (CSV.get_transactions start_date end_date w)) as [df|e] eqn:H.
  - destruct (get_transactions_inv w _ _ df H)
      as (f & a & b & Hd & Hh & Hs & He & ->).
    assert (Hd' : disk (snd (CSV.get_transactions start_date end_date w)) =
                  Some f) by (rewrite get_transactions_disk; exact Hd).
    rewrite (get_transactions_ok _ f _ _ a b Hd' Hh Hs He); reflexivity.
  - rewrite (get_transactions_raise_world w _ _ e H); exact H.
Qed.

(** X4. Bounds given the wrong way round, the start after the end, are
    no error: the query returns the empty frame and prints the notice
    and the zero summary. *)
Theorem reversed_bounds_return_nothing :
  forall (w : world) (f : csv_file) (start_date end_date : string)
         (a b : datetime),
    disk w = Some f -> has_header f = true ->
    strptime start_date = Some a -> strptime end_date = Some b ->
    ~ calendar_le a b ->
    CSV.get_transactions start_date end_date w =
    (Ok (mk_df true []),
     mk_world (disk w)
       (console w ++
        [print_no_transactions; print_summary; print_total_income 0;
         print_total_expense 0; print_net_savings 0])).
Proof.
  intros w f start_date end_date a b Hd Hh Hs He Hrev.
  rewrite (get_transactions_ok w f _ _ a b Hd Hh Hs He).
  rewrite (select_nil a b f);
    [rewrite report_nil; reflexivity
    | exact (strptime_valid _ _ Hs) | exact (strptime_valid _ _ He) |].
  intros r t _ _ [Hat Htb]; apply Hrev.
  exact (calendar_le_trans a t b Hat Htb).
Qed.

(** X5. A wider range returns at least the rows of a narrower one. *)
Theorem wider_range_returns_more :
  forall (w : world) (f : csv_file)
         (start_date end_date start_date' end_date' : string)
         (a b a' b' : datetime),
    disk w = Some f -> has_header f = true ->
    strptime start_date = Some a -> strptime end_date = Some b ->
    strptime start_date' = Some a' -> strptime end_date' = Some b' ->
    calendar_le a' a -> calendar_le b b' ->
    exists df df',
      fst (CSV.get_transactions start_date end_date w) = Ok df /\
      fst (CSV.get_transactions start_date' end_date' w) = Ok df' /\
      incl (rows df) (rows df').
Proof.
  intros w f start_date end_date start_date' end_date' a b a' b'
    Hd Hh Hs He Hs' He' Ha Hb.
  exists (mk_df true (select a b f)), (mk_df true (select a' b' f)).
  rewrite (get_transactions_ok w f _ _ a b Hd Hh Hs He).
  rewrite (get_transactions_ok w f _ _ a' b' Hd Hh Hs' He').
  repeat split; cbn [rows].
  intros x Hx; apply In_select in Hx; apply In_select.
  destruct Hx as (i & r & Hi & Hr & Hx & Hm).
  exists i, r; repeat split; auto.
  pose proof (strptime_valid _ _ Hr) as Vx.
  apply (mask_calendar a b x) in Hm; eauto using strptime_valid.
  apply (mask_calendar a' b' x); eauto using strptime_valid.
  destruct Hm as [H1 H2]; split; eapply calendar_le_trans; eauto.
Qed.

Lemma select_append_skipped (a b : datetime) (f : csv_file) (r : row) :
  (strptime (date r) = None \/
   exists t, strptime (date r) = Some t /\
             ~ (calendar_le a t /\ calendar_le t b)) ->
  valid_date a -> valid_date b ->
  select a b (mk_file (has_header f) (lines f ++ [r])) = select a b f.
Proof.
  intros Hr Va Vb; unfold select; cbn [lines].
  rewrite number_app, map_app, dropna_app, filter_app.
  rewrite <- (app_nil_r (filter (mask a b)
                (dropna (map coerce_date (number 0 (lines f)))))) at 2.
  f_equal.
  cbn [number map dropna Nat.add]; unfold coerce_date, to_datetime;
    cbn [cell_date label cell_amount cell_category cell_description].
  destruct Hr as [E | (t & E & Hout)]; rewrite E; [reflexivity|].
  cbn [filter]; fold (frame_row (List.length (lines f)) r t).
  destruct (mask a b (frame_row (List.length (lines f)) r t)) eqn:Hm;
    [|reflexivity].
  exfalso; apply Hout.
  apply (mask_calendar a b (frame_row (List.length (lines f)) r t)) in Hm;
    auto.
  exact (strptime_valid _ _ E).
Qed.

(** X6. A record appended with a date that does not read under the
    format, or with a date outside the range, is stored without
    complaint and, over a store whose lines have plain categories and
    descriptions, changes the answer of the query in nothing. *)
Theorem skipped_record_changes_no_result :
  forall (w : world) (f : csv_file) (r : row)
         (start_date end_date : string) (a b : datetime),
    disk w = Some f -> has_header f = true ->
    plain_lines (lines f) = true ->
    strptime start_date = Some a -> strptime end_date = Some b ->
    (strptime (date r) = None \/
     exists t, strptime (date r) = Some t /\
               ~ (calendar_le a t /\ calendar_le t b)) ->
    CSV.add_entry (date r) (amount r) (category r) (description r) w =
      (Ok tt,
       mk_world (Some (mk_file true (lines f ++ [r])))
                (console w ++ [print_entry_added])) /\
    fst (CSV.get_transactions start_date end_date
           (snd (CSV.add_entry (date r) (amount r) (category r)
                   (description r) w))) =
    fst (CSV.get_transactions start_date end_date w).
Proof.
  intros w f r start_date end_date a b Hd Hh Hplain Hs He Hr.
  rewrite add_entry_run, Hd, Hh; split; [reflexivity|].
  cbn [snd].
  rewrite (get_transactions_ok w f _ _ a b Hd Hh Hs He).
  rewrite (get_transactions_ok
             (mk_world (Some (mk_file true (lines f ++ [r])))
                       (console w ++ [print_entry_added]))
             (mk_file true (lines f ++ [r])) _ _ a b
             eq_refl eq_refl Hs He).
  cbn [fst].
  change (select a b (mk_file true (lines f ++ [r])))
    with (select a b (mk_file (has_header f) (lines f ++ [r]))).
  rewrite (select_append_skipped a b f r Hr);
    eauto using strptime_valid.
Qed.

(** X7. A record of category [Income] or [Expense] appended inside
    the range joins, at the next query, the amounts its category's
    total is the sum of, after those that were there; the other total
    is the same float64 as before.  A record of another category
    leaves both totals as they were. *)
Theorem appended_amount_enters_its_total :
  forall (w : world) (f : csv_file) (r : row) (t : datetime)
         (start_date end_date : string) (a b : datetime),
    disk w = Some f -> has_header f = true ->
    strptime (date r) = Some t ->
    strptime start_date = Some a -> strptime end_date = Some b ->
    calendar_le a t -> calendar_le t b ->
    exists df df',
      fst (CSV.get_transactions start_date end_date w) = Ok df /\
      fst (CSV.get_transactions start_date end_date
             (snd (CSV.add_entry (date r) (amount r) (category r)
                     (description r) w))) = Ok df' /\
      (category r = "Income" ->
       total_income (rows df') =
         series_sum (amounts_for "Income" (rows df) ++ [amount r]) /\
       total_expense (rows df') = total_expense (rows df)) /\
      (category r = "Expense" ->
       total_expense (rows df') =
         series_sum (amounts_for "Expense" (rows df) ++ [amount r]) /\
       total_income (rows df') = total_income (rows df)) /\
      (category r <> "Income" -> category r <> "Expense" ->
       total_income (rows df') = total_income (rows df) /\
       total_expense (rows df') = total_expense (rows df)).
Proof.
  intros w f r t start_date end_date a b Hd Hh Ht Hs He Hat Htb.
  assert (Hm : mask a b (frame_row (List.length (lines f)) r t) = true).
  { apply mask_calendar; cbn [frame_row cell_date];
      eauto using strptime_valid. }
  exists (mk_df true (select a b f)),
         (mk_df true (select a b (mk_file (has_header f) (lines f ++ [r])))).
  rewrite add_entry_run, Hd; cbn [snd].
  rewrite (get_transactions_ok w f _ _ a b Hd Hh Hs He).
  rewrite (get_transactions_ok
             (mk_world (Some (mk_file (has_header f) (lines f ++ [r])))
                       (console w ++ [print_entry_added]))
             (mk_file (has_header f) (lines f ++ [r]))
             _ _ a b eq_refl Hh Hs He).
  cbn [fst rows]; rewrite (select_append a b t f r Ht Hm).
  assert (Hin : forall c, category r = c ->
            total c (select a b f ++ [frame_row (List.length (lines f)) r t])
            = series_sum (amounts_for c (select a b f) ++ [amount r])).
  { intros c <-; rewrite total_amounts_for; f_equal.
    induction (select a b f) as [|x xs IH]; cbn [app amounts_for].
    - cbn [frame_row cell_category cell_amount].
      rewrite String.eqb_refl; reflexivity.
    - destruct (String.eqb (cell_category x) (category r));
        rewrite IH; reflexivity. }
  assert (Hout : forall c, category r <> c ->
            total c (select a b f ++ [frame_row (List.length (lines f)) r t])
            = total c (select a b f)).
  { intros c Hc; unfold total; rewrite filter_app.
    cbn [filter frame_row cell_category].
    assert (E : String.eqb (category r) c = false)
      by (apply String.eqb_neq; exact Hc).
    rewrite E, app_nil_r; reflexivity. }
  split; [reflexivity|split; [reflexivity|split; [|split]]].
  - intros E; split; [apply Hin; exact E|].
    apply Hout; rewrite E; discriminate.
  - intros E; split; [apply Hin; exact E|].
    apply Hout; rewrite E; discriminate.
  - intros Hi He'; split; apply Hout; assumption.
Qed.

(** ** [add], and the file it leaves *)

Lemma add_absent (a : answers) (w : world) :
  disk w = None ->
  add a w =
  (Ok tt,
   mk_world (Some (mk_file true (CSV.sample_data ++ [entry a])))
            (console w ++ [print_sample_data_added; print_entry_added])).
Proof.
  intros Hd; unfold add, bind at 1.
  rewrite (initialize_csv_absent w Hd), add_entry_run.
  cbn [disk console has_header lines]; rewrite <- app_assoc; reflexivity.
Qed.

Lemma add_present (a : answers) (w : world) (f : csv_file) :
  disk w = Some f ->
  add a w =
  match has_header f, lines f with
  | false, [] => (Raise EmptyDataError, w)
  | _, _ =>
      (Ok tt,
       mk_world (Some (mk_file (has_header f) (lines f ++ [entry a])))
                (console w ++ [print_entry_added]))
  end.
Proof.
  intros Hd; unfold add, bind at 1.
  rewrite (initialize_csv_present w f Hd).
  destruct (has_header f) eqn:Hh; [|destruct (lines f) eqn:Hl];
    try reflexivity; rewrite add_entry_run, Hd, ?Hh, ?Hl; reflexivity.
Qed.

(** X9. [add] on the three files it can meet.  On an absent file it
    creates the store with its header, the 15 seed records and then the
    entry, and prints both messages.  On a file that has its header, or
    at least one line, it appends the entry and nothing else.  On a
    file of zero bytes it raises [EmptyDataError] before the entry is
    written: file and console stay as they were. *)
Theorem add_on_each_file :
  forall (a : answers) (w : world),
    (disk w = None ->
     add a w =
     (Ok tt,
      mk_world (Some (mk_file true (CSV.sample_data ++ [entry a])))
               (console w ++ [print_sample_data_added; print_entry_added]))) /\
    (forall f, disk w = Some f -> has_header f = true \/ lines f <> [] ->
     add a w =
     (Ok tt,
      mk_world (Some (mk_file (has_header f) (lines f ++ [entry a])))
               (console w ++ [print_entry_added]))) /\
    (disk w = Some (mk_file false []) -> add a w = (Raise EmptyDataError, w)).
Proof.
  intros a w; split; [exact (add_absent a w)|split].
  - intros f Hd Hf; rewrite (add_present a w f Hd).
    destruct (has_header f); [reflexivity|].
    destruct (lines f); [|reflexivity].
    destruct Hf as [Hf | Hf]; [discriminate | contradiction].
  - intros Hd; rewrite (add_present a w _ Hd); reflexivity.
Qed.

(** ** The menu loop *)

Lemma main_body_menu (a : answers) (w : world) :
  main_body a w =
  (if String.eqb (choice a) "1" then
     add a ;;; ret Continue
   else if String.eqb (choice a) "2" then
     df <- CSV.get_transactions (start_answer a) (end_answer a) ;;
     (if negb (empty df) then
        emit prompt_plot ;;;
        if String.eqb (lower (plot_answer a)) "y" then plot_transactions df
        else ret tt
      else ret tt) ;;;
     ret Continue
   else if String.eqb (choice a) "3" then
     emit print_exiting ;;; ret Break
   else
     emit print_invalid_choice ;;; ret Continue)
    (mk_world (disk w) (console w ++ menu_events)).
Proof.
  unfold main_body, menu_events.
  unfold bind at 1 2 3 4; unfold emit at 1 2 3 4; cbn [disk console].
  rewrite <- !app_assoc; reflexivity.
Qed.

Lemma main_cons (a : answers) (script : list answers) (w : world) :
  main (a :: script) w =
  match main_body a w with
  | (Ok Continue, w') => main script w'
  | (Ok Break, w') => (Ok tt, w')
  | (Raise e, w') => (Raise e, w')
  end.
Proof.
  cbn [main]; unfold bind at 1.
  destruct (main_body a w) as [[[|]|e] w']; reflexivity.
Qed.

Lemma plot_transactions_disk (df : DataFrame datetime) (w : world) :
  disk (snd (plot_transactions df w)) = disk w.
Proof. unfold plot_transactions; destruct (rows df); reflexivity. Qed.

(** One pass over a store with its header: how it ends, and the file
    it leaves. *)
Lemma main_body_headed (a : answers) (w : world) (f : csv_file) :
  disk w = Some f -> has_header f = true ->
  fst (main_body a w) =
    (if String.eqb (choice a) "1" then Ok Continue
     else if String.eqb (choice a) "2" then
       if parses (start_answer a) && parses (end_answer a)
       then Ok Continue else Raise ValueError
     else if String.eqb (choice a) "3" then Ok Break
     else Ok Continue) /\
  disk (snd (main_body a w)) =
    Some (if String.eqb (choice a) "1"
          then mk_file true (lines f ++ [entry a]) else f).
Proof.
  intros Hd Hh; rewrite main_body_menu.
  set (w0 := mk_world (disk w) (console w ++ menu_events)).
  assert (H0 : disk w0 = Some f) by exact Hd.
  destruct (String.eqb (choice a) "1").
  - unfold bind; rewrite (add_present a w0 f H0), Hh; split; reflexivity.
  - destruct (String.eqb (choice a) "2");
      [|destruct (String.eqb (choice a) "3"); split; exact H0 || reflexivity].
    match goal with
    | |- fst (?m w0) = _ /\ _ =>
        assert (Hview : exists w1,
                   m w0 =
                   (if parses (start_answer a) && parses (end_answer a)
                    then Ok Continue else Raise ValueError, w1) /\
                   disk w1 = Some f)
    end.
    { unfold bind at 1, parses.
      destruct (strptime (start_answer a)) as [s|] eqn:Hs.
      - destruct (strptime (end_answer a)) as [e|] eqn:He.
        + rewrite (get_transactions_ok w0 f _ _ s e H0 Hh Hs He).
          unfold bind at 1, empty; cbn [rows andb].
          destruct (select s e f) as [|x xs]; cbn [negb ret];
            [eexists; split; [reflexivity|exact H0]|].
          destruct (String.eqb (lower (plot_answer a)) "y");
            cbv [bind emit plot_transactions ret rows disk console];
            eexists; split; reflexivity || exact H0.
        + rewrite (get_transactions_bad_end w0 f _ _ s H0 Hh Hs He).
          cbn [andb]; eexists; split; [reflexivity|exact H0].
      - rewrite (get_transactions_bad_start w0 f _ (end_answer a) H0 Hh Hs).
        cbn [andb]; eexists; split; [reflexivity|exact H0]. }
    destruct Hview as (w1 & -> & Hw1); split; [reflexivity|exact Hw1].
Qed.

(** One pass while the file is absent. *)
Lemma main_body_absent (a : answers) (w : world) :
  disk w = None ->
  fst (main_body a w) =
    (if String.eqb (choice a) "1" then Ok Continue
     else if String.eqb (choice a) "2" then Raise FileNotFoundError
     else if String.eqb (choice a) "3" then Ok Break
     else Ok Continue) /\
  disk (snd (main_body a w)) =
    (if String.eqb (choice a) "1"
     then Some (mk_file true (CSV.sample_data ++ [entry a])) else None).
Proof.
  intros Hd; rewrite main_body_menu.
  set (w0 := mk_world (disk w) (console w ++ menu_events)).
  assert (H0 : disk w0 = None) by exact Hd.
  destruct (String.eqb (choice a) "1").
  - unfold bind; rewrite (add_absent a w0 H0); split; reflexivity.
  - destruct (String.eqb (choice a) "2");
      [|destruct (String.eqb (choice a) "3"); split; exact H0 || reflexivity].
    assert (Hq : CSV.get_transactions (start_answer a) (end_answer a) w0 =
                 (Raise FileNotFoundError, w0))
      by (unfold CSV.get_transactions, bind, read_csv; rewrite H0;
          reflexivity).
    unfold bind; rewrite Hq; split; [reflexivity|exact H0].
Qed.

Lemma main_writes_present (script : list answers) (w : world)
    (f : csv_file) :
  disk w = Some f -> has_header f = true ->
  disk (snd (main script w)) =
  Some (mk_file true (lines f ++ entries_written true script)).
Proof.
  revert w f; induction script as [|a script IH]; intros w f Hd Hh.
  - cbn [main ret snd entries_written]; rewrite app_nil_r, Hd.
    destruct f; cbn [has_header] in Hh; subst; reflexivity.
  - rewrite main_cons; cbn [entries_written andb].
    destruct (main_body_headed a w f Hd Hh) as [Hfst Hdisk].
    destruct (main_body a w) as [o w']; cbn [fst snd] in Hfst, Hdisk.
    assert (Hstay : f = mk_file true (lines f))
      by (destruct f; cbn [has_header] in Hh; subst; reflexivity).
    destruct (String.eqb (choice a) "1").
    + subst o; rewrite (IH w' _ Hdisk eq_refl); cbn [lines].
      rewrite <- app_assoc; reflexivity.
    + destruct (String.eqb (choice a) "2").
      * destruct (parses (start_answer a) && parses (end_answer a));
          subst o; [exact (IH w' f Hdisk Hh)|].
        cbn [snd]; rewrite Hdisk, app_nil_r, Hstay at 1; reflexivity.
      * destruct (String.eqb (choice a) "3"); subst o;
          [|exact (IH w' f Hdisk Hh)].
        cbn [snd]; rewrite Hdisk, app_nil_r, Hstay at 1; reflexivity.
Qed.

Lemma main_writes_absent (script : list answers) (w : world) :
  disk w = None ->
  disk (snd (main script w)) =
  match entries_written false script with
  | [] => None
  | e :: es => Some (mk_file true (CSV.sample_data ++ e :: es))
  end.
Proof.
  revert w; induction script as [|a script IH]; intros w Hd.
  - exact Hd.
  - rewrite main_cons; cbn [entries_written andb].
    destruct (main_body_absent a w Hd) as [Hfst Hdisk].
    destruct (main_body a w) as [o w']; cbn [fst snd] in Hfst, Hdisk.
    destruct (String.eqb (choice a) "1").
    + subst o; rewrite (main_writes_present script w' _ Hdisk eq_refl).
      cbn [lines]; rewrite <- app_assoc; reflexivity.
    + destruct (String.eqb (choice a) "2"); [subst o; exact Hdisk|].
      destruct (String.eqb (choice a) "3"); subst o;
        [exact Hdisk|exact (IH w' Hdisk)].
Qed.

(** X10. What the menu writes, on a store that is absent or has its
    header.  The file after any script is the file before followed by
    the entries of the passes that add, in their order, up to the pass
    that ends the loop: nothing else is written, no line is changed or
    removed.  When the file was absent it stays absent as long as no
    pass adds, and the first pass that adds puts the header and the 15
    seed records, once, before its entry. *)
Theorem main_only_appends :
  forall (script : list answers) (w : world),
    (forall f, disk w = Some f -> has_header f = true ->
       disk (snd (main script w)) =
       Some (mk_file true (lines f ++ entries_written true script))) /\
    (disk w = None ->
       disk (snd (main script w)) =
       match entries_written false script with
       | [] => None
       | e :: es => Some (mk_file true (CSV.sample_data ++ e :: es))
       end).
Proof.
  intros script w; split.
  - exact (main_writes_present script w).
  - exact (main_writes_absent script w).
Qed.



Lemma lower_char_y (c : ascii) :
  lower_char c = "y"%char <-> c = "y"%char \/ c = "Y"%char.
Proof.
  destruct c as [[] [] [] [] [] [] [] []]; vm_compute;
    split; intros H; try discriminate H; auto;
    destruct H as [H | H]; discriminate H.
Qed.

Lemma lower_y (s : string) : lower s = "y" <-> s = "y" \/ s = "Y".
Proof.
  destruct s as [|c [|c' s']]; cbn [lower].
  - split; [discriminate|intros [H | H]; discriminate H].
  - split.
    + intros H; injection H as H; apply lower_char_y in H.
      destruct H as [-> | ->]; auto.
    + intros [H | H]; injection H as ->; reflexivity.
  - split; [discriminate|intros [H | H]; discriminate H].
Qed.

(** X11. A pass that views transactions over a readable store with
    bounds that read: it prints the menu and the report, asks about the
    plot only when at least one row was returned, shows the plot only
    when the answer is then y or Y, leaves the file alone and goes on
    to the next pass. *)
Theorem view_pass :
  forall (w : world) (f : csv_file) (ans : answers) (a b : datetime),
    disk w = Some f -> has_header f = true ->
    choice ans = "2" ->
    strptime (start_answer ans) = Some a ->
    strptime (end_answer ans) = Some b ->
    main_body ans w =
      (Ok Continue,
       mk_world (disk w)
         (console w ++ menu_events ++ report a b (select a b f) ++
          plot_dialogue (plot_answer ans) (select a b f))) /\
    (In prompt_plot (plot_dialogue (plot_answer ans) (select a b f)) <->
     select a b f <> []) /\
    (In (show_plot (select a b f))
        (plot_dialogue (plot_answer ans) (select a b f)) <->
     select a b f <> [] /\ (plot_answer ans = "y" \/ plot_answer ans = "Y")).
Proof.
  intros w f ans a b Hd Hh Hc Hs He; split; [|split].
  - rewrite main_body_menu, Hc.
    change (String.eqb "2" "1") with false.
    change (String.eqb "2" "2") with true.
    cbv iota; unfold bind at 1 2.
    rewrite (get_transactions_ok
               (mk_world (disk w) (console w ++ menu_events)) f _ _ a b
               Hd Hh Hs He).
    unfold empty, plot_dialogue; cbn [rows disk console].
    destruct (select a b f) as [|x xs]; cbn [negb].
    + cbn [ret]; rewrite <- !app_assoc, app_nil_r; reflexivity.
    + destruct (String.eqb (lower (plot_answer ans)) "y");
        cbv [bind emit plot_transactions ret rows disk console];
        rewrite <- !app_assoc; reflexivity.
  - unfold plot_dialogue; destruct (select a b f) as [|x xs].
    + split; [intros []|intros H; contradiction].
    + split; [discriminate|left; reflexivity].
  - unfold plot_dialogue; rewrite <- lower_y.
    destruct (select a b f) as [|x xs].
    + split; [intros []|intros [H _]; contradiction].
    + destruct (String.eqb_spec (lower (plot_answer ans)) "y") as [E|E].
      * split; [intros _; split; [discriminate|exact E]|].
        intros _; right; left; reflexivity.
      * split.
        -- intros [H | []]; discriminate H.
        -- intros [_ H]; contradiction.
Qed.

(** X12. A choice other than 1, 2 or 3 is reported and the loop goes
    on with the next pass; choice 3 prints the farewell and ends the
    loop, whatever would follow.  Neither touches the file. *)
Theorem other_choices :
  forall (a : answers) (script : list answers) (w : world),
    (choice a <> "1" -> choice a <> "2" -> choice a <> "3" ->
     main (a :: script) w =
     main script
       (mk_world (disk w)
          (console w ++ menu_events ++ [print_invalid_choice]))) /\
    (choice a = "3" ->
     main (a :: script) w =
     (Ok tt,
      mk_world (disk w) (console w ++ menu_events ++ [print_exiting]))).
Proof.
  intros a script w; split.
  - intros H1 H2 H3; rewrite main_cons, main_body_menu.
    apply String.eqb_neq in H1, H2, H3; rewrite H1, H2, H3.
    unfold bind, emit, ret; cbn [disk console].
    rewrite <- app_assoc; reflexivity.
  - intros H3; rewrite main_cons, main_body_menu, H3.
    change (String.eqb "3" "1") with false.
    change (String.eqb "3" "2") with false.
    change (String.eqb "3" "3") with true.
    unfold bind, emit, ret; cbn [disk console].
    rewrite <- app_assoc; reflexivity.
Qed.

(** X14. On a first run, before anything was added, no file exists and
    the query raises [FileNotFoundError], having printed nothing: it
    does not initialise the store as [add] does.  A pass of the menu
    that views transactions then ends the loop with that error. *)
Theorem view_before_first_add :
  forall (w : world) (ans : answers) (script : list answers),
    disk w = None -> choice ans = "2" ->
    CSV.get_transactions (start_answer ans) (end_answer ans) w =
      (Raise FileNotFoundError, w) /\
    main (ans :: script) w =
      (Raise FileNotFoundError,
       mk_world None (console w ++ menu_events)).
Proof.
  intros w ans script Hd Hc; split.
  - unfold CSV.get_transactions, bind, read_csv; rewrite Hd; reflexivity.
  - rewrite main_cons, main_body_menu, Hc, Hd.
    change (String.eqb "2" "1") with false.
    change (String.eqb "2" "2") with true.
    reflexivity.
Qed.


End Properties.

(** * At concrete inputs *)

(** From here on the program runs with the sums added first to last. *)
#[export] Existing Instance first_to_last.

(** ** Where the claims as stated fail *)

(** C7, as stated, fails: over the seeded store, a range in February
    returns no row, and the console then holds the notice followed by
    the three summary figures. *)
Lemma empty_result_prints_summary :
  fst (CSV.get_transactions "01-02-2025" "28-02-2025" seeded) =
    Ok (mk_df true []) /\
  console (snd (CSV.get_transactions "01-02-2025" "28-02-2025" seeded)) =
    [print_no_transactions; print_summary; print_total_income 0;
     print_total_expense 0; print_net_savings 0] /\
  console (snd (CSV.get_transactions "01-02-2025" "28-02-2025" seeded)) <>
    [print_no_transactions].
Proof.
  split; [vm_compute; reflexivity|split; [vm_compute; reflexivity|]].
  vm_compute; discriminate.
Qed.

(** C10, as stated, fails: two transfers of 40 and -40 are returned
    with the income of March, they enter no total, and yet the two
    totals add up to the sum of all returned amounts, 100 on both
    sides.  The amounts are whole and small: no addition rounds, in
    whatever order the sums are taken. *)
Lemma transfers_cancel_out :
  exists df,
    fst (CSV.get_transactions "01-03-2025" "31-03-2025" with_transfers) =
      Ok df /\
    In (mk_frow 1%nat (mk_datetime 2025 3 2) 40 "Transfer" "To savings")
       (rows df) /\
    In (mk_frow 2%nat (mk_datetime 2025 3 3) (-40) "Transfer" "From savings")
       (rows df) /\
    PrimFloat.add (total_income (rows df)) (total_expense (rows df)) =
    total_amount (rows df).
Proof.
  eexists; split; [vm_compute; reflexivity|]; cbn [rows].
  split; [right; left; reflexivity|].
  split; [right; right; left; reflexivity|].
  vm_compute; reflexivity.
Qed.


(** ** The theorems at concrete inputs *)

Lemma get_transactions_in_range_witness :
  disk seeded = Some (mk_file true CSV.sample_data) /\
  has_header (mk_file true CSV.sample_data) = true /\
  strptime "03-01-2025" = Some (mk_datetime 2025 1 3) /\
  strptime "05-01-2025" = Some (mk_datetime 2025 1 5) /\
  exists df,
    fst (CSV.get_transactions "03-01-2025" "05-01-2025" seeded) = Ok df /\
    forall (i : nat) (r : row) (t : datetime),
      nth_error (lines (mk_file true CSV.sample_data)) i = Some r ->
      strptime (date r) = Some t ->
      (In (frame_row i r t) (rows df) <->
       calendar_le (mk_datetime 2025 1 3) t /\
       calendar_le t (mk_datetime 2025 1 5)).
Proof.
  split; [reflexivity|].
  split; [reflexivity|].
  split; [reflexivity|].
  split; [reflexivity|].
  apply (get_transactions_in_range seeded (mk_file true CSV.sample_data)
           "03-01-2025" "05-01-2025"); reflexivity.
Defined.

Lemma unparseable_date_excluded_witness :
  disk with_bad_date =
    Some (mk_file true [mk_row "31-13-2025" 10 "Income" "Typo"; coffee]) /\
  has_header (mk_file true [mk_row "31-13-2025" 10 "Income" "Typo"; coffee]) =
    true /\
  nth_error [mk_row "31-13-2025" 10 "Income" "Typo"; coffee] 0 =
    Some (mk_row "31-13-2025" 10 "Income" "Typo") /\
  strptime "31-13-2025" = None /\
  (forall df,
      fst (CSV.get_transactions "01-01-2025" "31-12-2025" with_bad_date) =
        Ok df ->
      forall x, In x (rows df) -> label x <> 0%nat) /\
  is_ok (fst (CSV.get_transactions "01-01-2025" "31-12-2025" with_bad_date)) =
  is_ok (fst (CSV.get_transactions "01-01-2025" "31-12-2025"
                (with_disk
                   (without_line 0
                      (mk_file true
                         [mk_row "31-13-2025" 10 "Income" "Typo"; coffee]))
                   with_bad_date))).
Proof.
  split; [reflexivity|].
  split; [reflexivity|].
  split; [reflexivity|].
  split; [reflexivity|].
  apply (unparseable_date_excluded with_bad_date
           (mk_file true [mk_row "31-13-2025" 10 "Income" "Typo"; coffee])
           "01-01-2025" "31-12-2025" 0
           (mk_row "31-13-2025" 10 "Income" "Typo"));
    reflexivity.
Defined.

Lemma get_transactions_bad_bound_witness :
  (strptime "2025-01-01" = None \/ strptime "31-01-2025" = None) /\
  (exists e,
      fst (CSV.get_transactions "2025-01-01" "31-01-2025" seeded) = Raise e) /\
  (forall f, disk seeded = Some f -> has_header f = true ->
     fst (CSV.get_transactions "2025-01-01" "31-01-2025" seeded) =
     Raise ValueError) /\
  snd (CSV.get_transactions "2025-01-01" "31-01-2025" seeded) = seeded.
Proof.
  split; [left; reflexivity|].
  apply (get_transactions_bad_bound seeded "2025-01-01" "31-01-2025").
  left; reflexivity.
Defined.

Lemma seeded_has_no_february :
  forall r t, In r CSV.sample_data -> strptime (date r) = Some t ->
    ~ (calendar_le (mk_datetime 2025 2 1) t /\
       calendar_le t (mk_datetime 2025 2 28)).
Proof.
  intros r t Hin Ht [Hlo _].
  assert (Hm : month t = 1).
  { cbn [In CSV.sample_data] in Hin.
    repeat (destruct Hin as [<- | Hin];
            [vm_compute in Ht; injection Ht as <-; reflexivity|]).
    destruct Hin. }
  assert (Hy : year t = 2025).
  { cbn [In CSV.sample_data] in Hin.
    repeat (destruct Hin as [<- | Hin];
            [vm_compute in Ht; injection Ht as <-; reflexivity|]).
    destruct Hin. }
  unfold calendar_le in Hlo; cbn [year month day] in Hlo; lia.
Qed.

Lemma no_match_is_not_an_error_witness :
  disk seeded = Some (mk_file true CSV.sample_data) /\
  strptime "01-02-2025" = Some (mk_datetime 2025 2 1) /\
  strptime "28-02-2025" = Some (mk_datetime 2025 2 28) /\
  CSV.get_transactions "01-02-2025" "28-02-2025" seeded =
    (Ok (mk_df true []),
     mk_world (disk seeded)
       (console seeded ++
        report (mk_datetime 2025 2 1) (mk_datetime 2025 2 28) [])) /\
  In print_no_transactions
     (report (mk_datetime 2025 2 1) (mk_datetime 2025 2 28) []) /\
  forall ans : answers,
    choice ans = "2" ->
    start_answer ans = "01-02-2025" -> end_answer ans = "28-02-2025" ->
    main_body ans seeded =
      (Ok Continue,
       mk_world (disk seeded)
         (console seeded ++
          [print_menu_add; print_menu_view; print_menu_exit; prompt_choice]
          ++ report (mk_datetime 2025 2 1) (mk_datetime 2025 2 28) [])) /\
    forall script : list answers,
      main (ans :: script) seeded = main script (snd (main_body ans seeded)).
Proof.
  split; [reflexivity|].
  split; [reflexivity|].
  split; [reflexivity|].
  apply (no_match_is_not_an_error seeded (mk_file true CSV.sample_data)
           "01-02-2025" "28-02-2025");
    try reflexivity.
  exact seeded_has_no_february.
Defined.

Lemma empty_result_report_witness :
  fst (CSV.get_transactions "01-02-2025" "28-02-2025" seeded) =
    Ok (mk_df true []) /\
  console (snd (CSV.get_transactions "01-02-2025" "28-02-2025" seeded)) =
  console seeded ++
  [print_no_transactions; print_summary; print_total_income 0;
   print_total_expense 0; print_net_savings 0].
Proof.
  split; [vm_compute; reflexivity|].
  apply (empty_result_report seeded "01-02-2025" "28-02-2025"
           (mk_df true []));
    [vm_compute; reflexivity | reflexivity].
Defined.


Lemma other_category_rows_witness :
  disk with_transfers =
    Some (mk_file true
       [ mk_row "01-03-2025" 100 "Income" "Gift";
         mk_row "02-03-2025" 40 "Transfer" "To savings";
         mk_row "03-03-2025" (-40) "Transfer" "From savings" ]) /\
  strptime "02-03-2025" = Some (mk_datetime 2025 3 2) /\
  strptime "02-03-2025" = Some (mk_datetime 2025 3 2) /\
  exists df,
    fst (CSV.get_transactions "02-03-2025" "02-03-2025" with_transfers) =
      Ok df /\
    (forall (i : nat) (r : row) (t : datetime),
        nth_error
          [ mk_row "01-03-2025" 100 "Income" "Gift";
            mk_row "02-03-2025" 40 "Transfer" "To savings";
            mk_row "03-03-2025" (-40) "Transfer" "From savings" ] i = Some r ->
        strptime (date r) = Some t ->
        calendar_le (mk_datetime 2025 3 2) t /\
        calendar_le t (mk_datetime 2025 3 2) ->
        category r <> "Income" -> category r <> "Expense" ->
        In (frame_row i r t) (rows df) /\
        is_other (frame_row i r t) = true) /\
    total_income (filter (fun x => negb (is_other x)) (rows df)) =
      total_income (rows df) /\
    total_expense (filter (fun x => negb (is_other x)) (rows df)) =
      total_expense (rows df).
Proof.
  split; [reflexivity|].
  split; [reflexivity|].
  split; [reflexivity|].
  apply (other_category_rows with_transfers
           (mk_file true
              [ mk_row "01-03-2025" 100 "Income" "Gift";
                mk_row "02-03-2025" 40 "Transfer" "To savings";
                mk_row "03-03-2025" (-40) "Transfer" "From savings" ])
           "02-03-2025" "02-03-2025");
    reflexivity.
Defined.


Lemma initialize_csv_idempotent_witness :
  disk header_only = Some (mk_file true []) /\
  snd (CSV.initialize_csv header_only) = header_only /\
  (has_header (mk_file true []) = true ->
   fst (CSV.initialize_csv header_only) = Ok tt) /\
  disk first_run = None /\
  disk (initialize_times 3 first_run) = Some (mk_file true CSV.sample_data).
Proof.
  split; [reflexivity|].
  split; [|split; [|split; [reflexivity|]]].
  - apply (proj1 initialize_csv_idempotent header_only (mk_file true []));
      reflexivity.
  - apply (proj1 initialize_csv_idempotent header_only (mk_file true []));
      reflexivity.
  - apply (proj1 (proj2 (proj2 (proj2 initialize_csv_idempotent)))
             2%nat first_run); reflexivity.
Defined.

(** ** The further theorems at concrete inputs *)


Lemma returned_rows_in_file_order_witness :
  fst (CSV.get_transactions "01-01-2025" "03-01-2025" seeded) =
    Ok (mk_df true first_three_days) /\
  StronglySorted lt (map label (rows (mk_df true first_three_days))).
Proof.
  split; [vm_compute; reflexivity|].
  apply (returned_rows_in_file_order seeded "01-01-2025" "03-01-2025"
           (mk_df true first_three_days)).
  vm_compute; reflexivity.
Defined.

Lemma reversed_bounds_return_nothing_witness :
  disk seeded = Some (mk_file true CSV.sample_data) /\
  strptime "05-01-2025" = Some (mk_datetime 2025 1 5) /\
  strptime "03-01-2025" = Some (mk_datetime 2025 1 3) /\
  ~ calendar_le (mk_datetime 2025 1 5) (mk_datetime 2025 1 3) /\
  CSV.get_transactions "05-01-2025" "03-01-2025" seeded =
  (Ok (mk_df true []),
   mk_world (disk seeded)
     (console seeded ++
      [print_no_transactions; print_summary; print_total_income 0;
       print_total_expense 0; print_net_savings 0])).
Proof.
  assert (Hrev : ~ calendar_le (mk_datetime 2025 1 5) (mk_datetime 2025 1 3))
    by (unfold calendar_le; cbn [year month day]; lia).
  split; [reflexivity|].
  split; [reflexivity|].
  split; [reflexivity|].
  split; [exact Hrev|].
  apply (reversed_bounds_return_nothing seeded
           (mk_file true CSV.sample_data) "05-01-2025" "03-01-2025"
           (mk_datetime 2025 1 5) (mk_datetime 2025 1 3));
    try reflexivity; exact Hrev.
Defined.

Lemma wider_range_returns_more_witness :
  disk seeded = Some (mk_file true CSV.sample_data) /\
  calendar_le (mk_datetime 2025 1 1) (mk_datetime 2025 1 3) /\
  calendar_le (mk_datetime 2025 1 5) (mk_datetime 2025 1 15) /\
  exists df df',
    fst (CSV.get_transactions "03-01-2025" "05-01-2025" seeded) = Ok df /\
    fst (CSV.get_transactions "01-01-2025" "15-01-2025" seeded) = Ok df' /\
    incl (rows df) (rows df').
Proof.
  assert (H1 : calendar_le (mk_datetime 2025 1 1) (mk_datetime 2025 1 3))
    by (unfold calendar_le; cbn [year month day]; lia).
  assert (H2 : calendar_le (mk_datetime 2025 1 5) (mk_datetime 2025 1 15))
    by (unfold calendar_le; cbn [year month day]; lia).
  split; [reflexivity|].
  split; [exact H1|].
  split; [exact H2|].
  apply (wider_range_returns_more seeded (mk_file true CSV.sample_data)
           "03-01-2025" "05-01-2025" "01-01-2025" "15-01-2025"
           (mk_datetime 2025 1 3) (mk_datetime 2025 1 5)
           (mk_datetime 2025 1 1) (mk_datetime 2025 1 15));
    try reflexivity; assumption.
Defined.

Lemma skipped_record_changes_no_result_witness :
  disk coffee_logged = Some (mk_file true [coffee]) /\
  plain_lines (lines (mk_file true [coffee])) = true /\
  strptime (date typo) = None /\
  CSV.add_entry (date typo) (amount typo) (category typo) (description typo)
    coffee_logged =
    (Ok tt,
     mk_world (Some (mk_file true (lines (mk_file true [coffee]) ++ [typo])))
              (console coffee_logged ++ [print_entry_added])) /\
  fst (CSV.get_transactions "01-01-2025" "31-12-2025"
         (snd (CSV.add_entry (date typo) (amount typo) (category typo)
                 (description typo) coffee_logged))) =
  fst (CSV.get_transactions "01-01-2025" "31-12-2025" coffee_logged).
Proof.
  split; [reflexivity|].
  split; [reflexivity|].
  split; [reflexivity|].
  apply (skipped_record_changes_no_result coffee_logged
           (mk_file true [coffee]) typo "01-01-2025" "31-12-2025"
           (mk_datetime 2025 1 1) (mk_datetime 2025 12 31));
    try reflexivity.
  left; reflexivity.
Defined.

Lemma appended_amount_enters_its_total_witness :
  disk header_only = Some (mk_file true []) /\
  strptime (date coffee) = Some (mk_datetime 2025 3 15) /\
  calendar_le (mk_datetime 2025 3 1) (mk_datetime 2025 3 15) /\
  calendar_le (mk_datetime 2025 3 15) (mk_datetime 2025 3 31) /\
  exists df df',
    fst (CSV.get_transactions "01-03-2025" "31-03-2025" header_only) = Ok df /\
    fst (CSV.get_transactions "01-03-2025" "31-03-2025"
           (snd (CSV.add_entry (date coffee) (amount coffee)
                   (category coffee) (description coffee) header_only))) =
      Ok df' /\
    (category coffee = "Income" ->
     total_income (rows df') =
       series_sum (amounts_for "Income" (rows df) ++ [amount coffee]) /\
     total_expense (rows df') = total_expense (rows df)) /\
    (category coffee = "Expense" ->
     total_expense (rows df') =
       series_sum (amounts_for "Expense" (rows df) ++ [amount coffee]) /\
     total_income (rows df') = total_income (rows df)) /\
    (category coffee <> "Income" -> category coffee <> "Expense" ->
     total_income (rows df') = total_income (rows df) /\
     total_expense (rows df') = total_expense (rows df)).
Proof.
  assert (H1 : calendar_le (mk_datetime 2025 3 1) (mk_datetime 2025 3 15))
    by (unfold calendar_le; cbn [year month day]; lia).
  assert (H2 : calendar_le (mk_datetime 2025 3 15) (mk_datetime 2025 3 31))
    by (unfold calendar_le; cbn [year month day]; lia).
  split; [reflexivity|].
  split; [reflexivity|].
  split; [exact H1|].
  split; [exact H2|].
  apply (appended_amount_enters_its_total header_only (mk_file true [])
           coffee (mk_datetime 2025 3 15) "01-03-2025" "31-03-2025"
           (mk_datetime 2025 3 1) (mk_datetime 2025 3 31));
    try reflexivity; assumption.
Defined.


Lemma add_on_each_file_witness :
  disk first_run = None /\
  add add_coffee first_run =
    (Ok tt,
     mk_world (Some (mk_file true (CSV.sample_data ++ [coffee])))
              (console first_run ++
               [print_sample_data_added; print_entry_added])) /\
  disk header_only = Some (mk_file true []) /\
  add add_coffee header_only =
    (Ok tt,
     mk_world
       (Some (mk_file (has_header (mk_file true []))
                      (lines (mk_file true []) ++ [coffee])))
       (console header_only ++ [print_entry_added])) /\
  disk zero_bytes = Some (mk_file false []) /\
  add add_coffee zero_bytes = (Raise EmptyDataError, zero_bytes).
Proof.
  split; [reflexivity|].
  split;
    [apply (proj1 (add_on_each_file add_coffee first_run)); reflexivity|].
  split; [reflexivity|].
  split;
    [apply (proj1 (proj2 (add_on_each_file add_coffee header_only))
              (mk_file true []));
       [reflexivity | left; reflexivity]|].
  split; [reflexivity|].
  apply (proj2 (proj2 (add_on_each_file add_coffee zero_bytes)));
    reflexivity.
Defined.

Lemma main_only_appends_witness :
  disk seeded = Some (mk_file true CSV.sample_data) /\
  has_header (mk_file true CSV.sample_data) = true /\
  disk (snd (main [add_coffee; view_february; mistyped_choice; add_coffee;
                   leave; add_coffee] seeded)) =
    Some (mk_file true
            (lines (mk_file true CSV.sample_data) ++
             entries_written true
               [add_coffee; view_february; mistyped_choice; add_coffee;
                leave; add_coffee])) /\
  entries_written true
    [add_coffee; view_february; mistyped_choice; add_coffee; leave;
     add_coffee] = [coffee; coffee] /\
  disk first_run = None /\
  disk (snd (main [mistyped_choice; add_coffee; add_coffee] first_run)) =
    match entries_written false [mistyped_choice; add_coffee; add_coffee] with
    | [] => None
    | e :: es => Some (mk_file true (CSV.sample_data ++ e :: es))
    end.
Proof.
  split; [reflexivity|].
  split; [reflexivity|].
  split;
    [apply (proj1 (main_only_appends
                     [add_coffee; view_february; mistyped_choice; add_coffee;
                      leave; add_coffee] seeded)
              (mk_file true CSV.sample_data));
       reflexivity|].
  split; [reflexivity|].
  split; [reflexivity|].
  apply (proj2 (main_only_appends [mistyped_choice; add_coffee; add_coffee]
                  first_run)); reflexivity.
Defined.

Lemma view_pass_witness :
  disk seeded = Some (mk_file true CSV.sample_data) /\
  choice view_january = "2" /\
  strptime (start_answer view_january) = Some (mk_datetime 2025 1 1) /\
  strptime (end_answer view_january) = Some (mk_datetime 2025 1 3) /\
  main_body view_january seeded =
    (Ok Continue,
     mk_world (disk seeded)
       (console seeded ++ menu_events ++
        report (mk_datetime 2025 1 1) (mk_datetime 2025 1 3)
          (select (mk_datetime 2025 1 1) (mk_datetime 2025 1 3)
             (mk_file true CSV.sample_data)) ++
        plot_dialogue (plot_answer view_january)
          (select (mk_datetime 2025 1 1) (mk_datetime 2025 1 3)
             (mk_file true CSV.sample_data)))) /\
  (In prompt_plot
      (plot_dialogue (plot_answer view_january)
         (select (mk_datetime 2025 1 1) (mk_datetime 2025 1 3)
            (mk_file true CSV.sample_data))) <->
   select (mk_datetime 2025 1 1) (mk_datetime 2025 1 3)
     (mk_file true CSV.sample_data) <> []) /\
  (In (show_plot
         (select (mk_datetime 2025 1 1) (mk_datetime 2025 1 3)
            (mk_file true CSV.sample_data)))
      (plot_dialogue (plot_answer view_january)
         (select (mk_datetime 2025 1 1) (mk_datetime 2025 1 3)
            (mk_file true CSV.sample_data))) <->
   select (mk_datetime 2025 1 1) (mk_datetime 2025 1 3)
     (mk_file true CSV.sample_data) <> [] /\
   (plot_answer view_january = "y" \/ plot_answer view_january = "Y")).
Proof.
  split; [reflexivity|].
  split; [reflexivity|].
  split; [reflexivity|].
  split; [reflexivity|].
  apply (view_pass seeded (mk_file true CSV.sample_data) view_january
           (mk_datetime 2025 1 1) (mk_datetime 2025 1 3));
    reflexivity.
Defined.

Lemma other_choices_witness :
  choice mistyped_choice <> "1" /\
  choice mistyped_choice <> "2" /\
  choice mistyped_choice <> "3" /\
  main [mistyped_choice; leave] seeded =
    main [leave]
      (mk_world (disk seeded)
         (console seeded ++ menu_events ++ [print_invalid_choice])) /\
  choice leave = "3" /\
  main [leave; add_coffee] seeded =
    (Ok tt,
     mk_world (disk seeded)
       (console seeded ++ menu_events ++ [print_exiting])).
Proof.
  split; [discriminate|].
  split; [discriminate|].
  split; [discriminate|].
  split;
    [apply (proj1 (other_choices mistyped_choice [leave] seeded));
       discriminate|].
  split; [reflexivity|].
  apply (proj2 (other_choices leave [add_coffee] seeded)); reflexivity.
Defined.

Lemma view_before_first_add_witness :
  disk first_run = None /\
  choice view_february = "2" /\
  CSV.get_transactions (start_answer view_february)
    (end_answer view_february) first_run =
    (Raise FileNotFoundError, first_run) /\
  main [view_february; leave] first_run =
    (Raise FileNotFoundError,
     mk_world None (console first_run ++ menu_events)).
Proof.
  split; [reflexivity|].
  split; [reflexivity|].
  apply (view_before_first_add first_run view_february [leave]);
    reflexivity.
Defined.

(** ** Readings of the format, and the order of dates *)

Example strptime_seed : strptime "01-01-2025" = Some (mk_datetime 2025 1 1).
Proof. reflexivity. Qed.

Example strptime_month_13 : strptime "31-13-2025" = None.
Proof. reflexivity. Qed.

Example strptime_february_30 : strptime "30-02-2024" = None.
Proof. reflexivity. Qed.

Example strptime_leap_day :
  strptime "29-02-2024" = Some (mk_datetime 2024 2 29).
Proof. reflexivity. Qed.

Example strptime_iso_order : strptime "2025-01-01" = None.
Proof. reflexivity. Qed.

Example strptime_trailing : strptime "03-01-20255" = None.
Proof. reflexivity. Qed.

(** The format also reads a day or a month of one digit. *)
Example strptime_one_digit :
  strptime "3-1-2025" = Some (mk_datetime 2025 1 3).
Proof. reflexivity. Qed.

(** As text "20-01-2025" comes after "02-02-2025"; as a date it comes
    before, and the query over 15-01-2025 .. 02-02-2025 returns it. *)
Example calendar_not_text :
  String.ltb "02-02-2025" "20-01-2025" = true /\
  fst (CSV.get_transactions "15-01-2025" "02-02-2025"
         (mk_world (Some (mk_file true
            [mk_row "20-01-2025" 30 "Income" "Refund"])) [])) =
  Ok (mk_df true
        [mk_frow 0%nat (mk_datetime 2025 1 20) 30 "Income" "Refund"]).
Proof. split; vm_compute; reflexivity. Qed.

(** The sums are float64: 1 added to ten million billions is lost, so
    the income total of these two rows is the first amount. *)
Example income_total_rounds :
  total_income
    [mk_frow 0%nat (mk_datetime 2025 1 1) 10000000000000000 "Income" "Sale";
     mk_frow 1%nat (mk_datetime 2025 1 2) 1 "Income" "Tip"] =
  10000000000000000%float.
Proof. vm_compute; reflexivity. Qed.

(** The scenario of the coffee: appended to the seeded store, it is
    the one row of March and it is in the expense total. *)
Example coffee_scenario :
  CSV.get_transactions "01-03-2025" "31-03-2025"
    (snd (CSV.add_entry "15-03-2025" (-75) "Expense" "Coffee" seeded)) =
  (Ok (mk_df true
         [mk_frow 15%nat (mk_datetime 2025 3 15) (-75) "Expense" "Coffee"]),
   mk_world
     (Some (mk_file true (CSV.sample_data ++ [coffee])))
     [print_entry_added;
      print_transactions_from (mk_datetime 2025 3 1) (mk_datetime 2025 3 31);
      print_table
        [mk_frow 15%nat (mk_datetime 2025 3 15) (-75) "Expense" "Coffee"];
      print_summary; print_total_income 0; print_total_expense (-75);
      print_net_savings 75]).
Proof. vm_compute; reflexivity. Qed.

(** Appending to an absent file makes a file without header, which a
    query cannot read. *)
Example add_entry_before_initialize :
  fst (CSV.get_transactions "01-03-2025" "31-03-2025"
         (snd (CSV.add_entry "15-03-2025" (-75) "Expense" "Coffee"
                 first_run))) = Raise KeyError.
Proof. reflexivity. Qed.

(** [add] initialises first, so the menu never meets that file. *)
Example add_on_first_run :
  disk (snd (add (mk_answers "1" coffee "" "" "") first_run)) =
  Some (mk_file true (CSV.sample_data ++ [coffee])).
Proof. reflexivity. Qed.

(** One pass that views February over the seeded store, then exit: no
    plot is asked for, the second pass leaves the loop. *)
Example main_view_then_exit :
  main [view_february; mk_answers "3" coffee "" "" ""] seeded =
  (Ok tt,
   mk_world (disk seeded)
     [print_menu_add; print_menu_view; print_menu_exit; prompt_choice;
      print_no_transactions; print_summary; print_total_income 0;
      print_total_expense 0; print_net_savings 0;
      print_menu_add; print_menu_view; print_menu_exit; prompt_choice;
      print_exiting]).
Proof. vm_compute; reflexivity. Qed.

